(** * SeoPreviewer: the SSRF-guarded fetch pipeline of [SEOAnalyzerService]

    A shallow embedding of [server/services/seoAnalyzer.ts] (the version
    with URL validation): the regular-expression tables that classify IP
    literals, [validateHostname], [validateAndSanitizeUrl],
    [preflightCheck], [fetchHTML], [calculateSEOScore] and
    [analyzeWebsite].

    JavaScript strings are modelled as [string]; one character stands for
    one UTF-16 code unit (host names, IP literals and header values are
    ASCII).  Numbers that the service manipulates are integers and are
    modelled in [Z]; [NaN] is [None] where [parseInt] can produce it. *)

From Stdlib Require Import String Ascii List ZArith Bool Lia DecimalString.
Import ListNotations.
Open Scope string_scope.

(* ================================================================== *)
(** ** Regular expressions: the fragment used by the service          *)
(* ================================================================== *)

Module Regex.

(** The syntax covers what the literals of the source use: anchors,
    single characters, [\d], bracket classes of ranges, concatenation,
    alternation and bounded repetition [r{lo,hi}].  Capturing and
    non-capturing groups do not differ for [RegExp.prototype.test]. *)
Inductive regex : Type :=
| Eps
| Bol
| Eol
| Chr (c : ascii)
| Digit
| Cls (ranges : list (ascii * ascii))
| Cat (r1 r2 : regex)
| Alt (r1 r2 : regex)
| Rep (r : regex) (lo hi : nat).

Definition in_range (c : ascii) (rg : ascii * ascii) : bool :=
  (N_of_ascii (fst rg) <=? N_of_ascii c)%N && (N_of_ascii c <=? N_of_ascii (snd rg))%N.

Definition is_digit (c : ascii) : bool := in_range c ("0"%char, "9"%char).

Definition in_class (ranges : list (ascii * ascii)) (c : ascii) : bool :=
  existsb (in_range c) ranges.

(** Consume one character satisfying [p]. *)
Definition one (p : ascii -> bool) (s : string) (k : bool -> string -> bool) : bool :=
  match s with
  | EmptyString => false
  | String c s' => p c && k false s'
  end.

(** Backtracking matcher in continuation-passing style.  [bol] tells
    whether the current position is the start of the input; [k] receives
    the position reached. *)
Fixpoint rmatch (r : regex) (bol : bool) (s : string)
  (k : bool -> string -> bool) {struct r} : bool :=
  match r with
  | Eps => k bol s
  | Bol => bol && k bol s
  | Eol => match s with EmptyString => k bol s | String _ _ => false end
  | Chr c => one (Ascii.eqb c) s k
  | Digit => one is_digit s k
  | Cls ranges => one (in_class ranges) s k
  | Cat r1 r2 => rmatch r1 bol s (fun b' s' => rmatch r2 b' s' k)
  | Alt r1 r2 => rmatch r1 bol s k || rmatch r2 bol s k
  | Rep r0 lo hi =>
      (fix rep (n lo : nat) (bol : bool) (s : string) {struct n} : bool :=
         match n with
         | O => (lo =? 0)%nat && k bol s
         | S n' =>
             rmatch r0 bol s (fun b' s' => rep n' (pred lo) b' s')
             || ((lo =? 0)%nat && k bol s)
         end) hi lo bol s
  end.

(** [RegExp.prototype.test] without flags: a match may start at any
    offset of the input. *)
Fixpoint search (r : regex) (bol : bool) (s : string) : bool :=
  rmatch r bol s (fun _ _ => true)
  || match s with
     | EmptyString => false
     | String _ s' => search r false s'
     end.

Definition test (r : regex) (s : string) : bool := search r true s.

(** A run of literal characters. *)
Fixpoint Str (s : string) : regex :=
  match s with
  | EmptyString => Eps
  | String c s' => Cat (Chr c) (Str s')
  end.

Definition cats (rs : list regex) : regex := fold_right Cat Eps rs.

End Regex.

Import Regex.

(* ================================================================== *)
(** ** Static tables of the service                                    *)
(* ================================================================== *)

Definition USER_AGENT : string :=
  "Mozilla/5.0 (compatible; SEO-Analyzer-Bot/1.0; +https://seo-analyzer.example.com)".
Definition TIMEOUT : Z := 10000%Z.
Definition MAX_CONTENT_LENGTH : Z := (10 * 1024 * 1024)%Z.
Definition ALLOWED_PORTS : list Z := [80; 443; 8080; 8443]%Z.

Definition rg (lo hi : string) : ascii * ascii :=
  (match lo with String c _ => c | EmptyString => zero end,
   match hi with String c _ => c | EmptyString => zero end).

(** [(1[6-9]|2[0-9]|3[01])], shared by the 172.16.0.0/12 patterns. *)
Definition re_16_31 : regex :=
  Alt (cats [Chr "1"; Cls [rg "6" "9"]])
 (Alt (cats [Chr "2"; Cls [rg "0" "9"]])
      (cats [Chr "3"; Cls [rg "0" "0"; rg "1" "1"]])).

Definition BLOCKED_IP_RANGES : list regex :=
  [ (* IPv4 private ranges *)
    cats [Bol; Str "0."];
    cats [Bol; Str "10."];
    cats [Bol; Str "100.";
         Alt (cats [Chr "6"; Cls [rg "4" "9"]])
        (Alt (cats [Cls [rg "7" "9"]; Cls [rg "0" "9"]])
        (Alt (cats [Chr "1"; Cls [rg "0" "1"]; Cls [rg "0" "9"]])
             (cats [Str "12"; Cls [rg "0" "7"]])));
         Chr "."];
    cats [Bol; Str "127."];
    cats [Bol; Str "169.254."];
    cats [Bol; Str "172."; re_16_31; Chr "."];
    cats [Bol; Str "192.0.0."];
    cats [Bol; Str "192.168."];
    cats [Bol; Str "198."; cats [Chr "1"; Cls [rg "8" "9"]]; Chr "."];
    cats [Bol; Str "22"; Cls [rg "4" "9"]; Chr "."];
    cats [Bol; Chr "2"; Cls [rg "3" "5"]; Cls [rg "0" "9"]; Chr "."];
    cats [Bol; Str "255.255.255.255"; Eol];
    (* IPv6 ranges *)
    cats [Bol; Str "::1"; Eol];
    cats [Bol; Str "::ffff:127."];
    cats [Bol; Str "::ffff:10."];
    cats [Bol; Str "::ffff:172."; re_16_31; Chr "."];
    cats [Bol; Str "::ffff:192.168."];
    cats [Bol; Str "fc00:"];
    cats [Bol; Str "fd00:"];
    cats [Bol; Str "fe80:"] ].

Definition METADATA_IPS : list string :=
  [ "169.254.169.254"; "169.254.169.123"; "100.100.100.200" ].

(** [Set.prototype.has] on a set of strings, and on a set of numbers
    ([NaN] is never a member of [ALLOWED_PORTS]). *)
Definition has (set : list string) (x : string) : bool :=
  existsb (String.eqb x) set.

Definition has_number (set : list Z) (x : option Z) : bool :=
  match x with
  | Some n => existsb (Z.eqb n) set
  | None => false
  end.

(** [/^(?:\d{1,3}\.){3}\d{1,3}$/] *)
Definition re_ipv4_shape : regex :=
  cats [Bol; Rep (cats [Rep Digit 1 3; Chr "."]) 3 3; Rep Digit 1 3; Eol].

Definition hex_digit : regex := Cls [rg "0" "9"; rg "a" "f"; rg "A" "F"].

(** [/^(?:[0-9a-fA-F]{0,4}:){1,7}[0-9a-fA-F]{0,4}$/] *)
Definition re_ipv6_shape : regex :=
  cats [Bol; Rep (cats [Rep hex_digit 0 4; Chr ":"]) 1 7; Rep hex_digit 0 4; Eol].

Definition isIPAddress (hostname : string) : bool :=
  test re_ipv4_shape hostname || test re_ipv6_shape hostname.

Definition isBlockedIP (ip : string) : bool :=
  existsb (fun range => test range ip) BLOCKED_IP_RANGES.

(* ================================================================== *)
(** ** JavaScript values and built-ins used by the service             *)
(* ================================================================== *)

(** Truthiness of a [string | undefined]: neither [undefined] nor the
    empty string. *)
Definition truthy (v : option string) : bool :=
  match v with
  | Some (String _ _) => true
  | _ => false
  end.

(** [v || undefined] *)
Definition or_undefined (v : option string) : option string :=
  if truthy v then v else None.

(** [String.prototype.includes] *)
Fixpoint includes (s needle : string) : bool :=
  prefix needle s
  || match s with
     | EmptyString => false
     | String _ s' => includes s' needle
     end.

(** [`${n}`] for an integer, and for the result of [parseInt]. *)
Definition showZ (n : Z) : string := NilZero.string_of_int (Z.to_int n).

Definition showNumber (n : option Z) : string :=
  match n with
  | Some z => showZ z
  | None => "NaN"
  end.

Definition is_space (c : ascii) : bool :=
  let n := N_of_ascii c in ((n =? 32) || ((9 <=? n) && (n <=? 13)))%N.

Fixpoint trimStart (s : string) : string :=
  match s with
  | String c s' => if is_space c then trimStart s' else s
  | EmptyString => EmptyString
  end.

Fixpoint trimEnd (s : string) : string :=
  match s with
  | EmptyString => EmptyString
  | String c s' =>
      match trimEnd s' with
      | EmptyString => if is_space c then EmptyString else String c EmptyString
      | t => String c t
      end
  end.

(** [String.prototype.trim] *)
Definition trim (s : string) : string := trimEnd (trimStart s).

Definition digit_value (c : ascii) : option Z :=
  let n := Z.of_N (N_of_ascii c) in
  if ((48 <=? n) && (n <=? 57))%Z then Some (n - 48)%Z
  else if ((97 <=? n) && (n <=? 122))%Z then Some (n - 87)%Z
  else if ((65 <=? n) && (n <=? 90))%Z then Some (n - 55)%Z
  else None.

(** The longest prefix of digits of the radix, read as a number; [acc]
    is [None] until a digit has been read. *)
Fixpoint parse_digits (radix : Z) (s : string) (acc : option Z) : option Z :=
  match s with
  | EmptyString => acc
  | String c s' =>
      match digit_value c with
      | Some d =>
          if (d <? radix)%Z
          then parse_digits radix s'
                 (Some (match acc with Some a => a * radix + d | None => d end)%Z)
          else acc
      | None => acc
      end
  end.

(** [parseInt(s)] without a radix argument: leading white space, an
    optional sign, an optional [0x] prefix, then digits; [None] is
    [NaN]. *)
Definition parseInt (s : string) : option Z :=
  let s := trimStart s in
  let '(negative, s) :=
    match s with
    | String "-" s' => (true, s')
    | String "+" s' => (false, s')
    | _ => (false, s)
    end in
  let '(radix, s) :=
    match s with
    | String "0" (String "x" s') => (16%Z, s')
    | String "0" (String "X" s') => (16%Z, s')
    | _ => (10%Z, s)
    end in
  option_map (fun n => if negative then (- n)%Z else n) (parse_digits radix s None).

(** What [new URL(...)] exposes to the service. *)
Record URL : Type := mkURL {
  protocol : string;
  port : string;
  hostname : string;
  href : string                    (* [toString()] *)
}.

(** Thrown values: [new Error(message)], an axios error (an [Error]
    carrying [code] and [response?.status]), or a value that is not an
    [Error]. *)
Inductive Exn : Type :=
| JsError (message : string)
| AxiosError (message : string) (code : option string) (status : option Z)
| NonError (value : string).

Definition instanceofError (e : Exn) : bool :=
  match e with
  | NonError _ => false
  | _ => true
  end.

Definition isAxiosError (e : Exn) : bool :=
  match e with
  | AxiosError _ _ _ => true
  | _ => false
  end.

Definition message_of (e : Exn) : string :=
  match e with
  | JsError m => m
  | AxiosError m _ _ => m
  | NonError _ => ""
  end.

Definition code_of (e : Exn) : option string :=
  match e with
  | AxiosError _ c _ => c
  | _ => None
  end.

Definition response_status_of (e : Exn) : option Z :=
  match e with
  | AxiosError _ _ st => st
  | _ => None
  end.

Definition code_is (e : Exn) (c : string) : bool :=
  match code_of e with
  | Some c' => String.eqb c' c
  | None => false
  end.

Definition status_is (e : Exn) (n : Z) : bool :=
  match response_status_of e with
  | Some st => (st =? n)%Z
  | None => false
  end.

Record Response : Type := mkResponse {
  status : Z;
  headers : list (string * string);
  data : string
}.

(** [response.headers[name]] *)
Fixpoint header (hs : list (string * string)) (name : string) : option string :=
  match hs with
  | [] => None
  | (k, v) :: hs' => if String.eqb k name then Some v else header hs' name
  end.

(** Observable interactions with the outside world. *)
Inductive Event : Type :=
| EvResolve4 (host : string)
| EvResolve6 (host : string)
| EvHead (url : string)
| EvGet (url : string).

Definition is_dns (e : Event) : bool :=
  match e with
  | EvResolve4 _ | EvResolve6 _ => true
  | _ => false
  end.


(** The libraries and the network the service runs against: the WHATWG
    [URL] constructor ([new URL(input)] and [new URL(input, base)]), the
    promisified [dns.resolve4] / [dns.resolve6], the transport under
    [axios.get] / [axios.head] (before [validateStatus] is applied),
    cheerio's selection, and the clock.  [W] is the state of the outside
    world, so that answers may change between calls. *)
Record Platform (W : Type) : Type := mkPlatform {
  new_URL : string -> option string -> Exn + URL;
  dnsResolve4 : string -> W -> (Exn + list string) * W;
  dnsResolve6 : string -> W -> (Exn + list string) * W;
  transport_get : string -> W -> (Exn + Response) * W;
  transport_head : string -> W -> (Exn + Response) * W;
  cheerio_first_text : string -> string -> string;
  cheerio_attr : string -> string -> string -> option string;
  now_toISOString : W -> string
}.

Arguments new_URL {W}.
Arguments dnsResolve4 {W}.
Arguments dnsResolve6 {W}.
Arguments transport_get {W}.
Arguments transport_head {W}.
Arguments cheerio_first_text {W}.
Arguments cheerio_attr {W}.
Arguments now_toISOString {W}.

(* ================================================================== *)
(** ** Computations: world state, event trace, exceptions              *)
(* ================================================================== *)

Inductive Outcome (A : Type) : Type :=
| Returned (a : A)
| Threw (e : Exn)
| OutOfFuel.

Arguments Returned {A}.
Arguments Threw {A}.
Arguments OutOfFuel {A}.

(** The state threaded through a request: the outside world and the
    events so far, oldest first. *)
Definition St (W : Type) : Type := (W * list Event)%type.

Definition M (W A : Type) : Type := St W -> Outcome A * St W.

Definition ret {W A} (a : A) : M W A := fun st => (Returned a, st).

Definition throw {W A} (e : Exn) : M W A := fun st => (Threw e, st).

Definition bind {W A B} (c : M W A) (k : A -> M W B) : M W B :=
  fun st =>
    match c st with
    | (Returned a, st') => k a st'
    | (Threw e, st') => (Threw e, st')
    | (OutOfFuel, st') => (OutOfFuel, st')
    end.

(** [try { c } catch (error) { handler error }] *)
Definition try_catch {W A} (c : M W A) (handler : Exn -> M W A) : M W A :=
  fun st =>
    match c st with
    | (Threw e, st') => handler e st'
    | r => r
    end.

Declare Scope js_scope.
Delimit Scope js_scope with js.
Notation "x <- c ;; k" := (bind c (fun x => k))
  (at level 61, c at next level, right associativity) : js_scope.
Notation "c ;; k" := (bind c (fun _ => k))
  (at level 61, right associativity) : js_scope.
Open Scope js_scope.

(** [for (const x of xs) body] *)
Fixpoint for_of {W A} (xs : list A) (body : A -> M W unit) : M W unit :=
  match xs with
  | [] => ret tt
  | x :: xs' => body x ;; for_of xs' body
  end.

(** Awaiting a platform call: record the event, advance the world, and
    throw if the promise was rejected. *)
Definition await {W A} (ev : Event) (call : W -> (Exn + A) * W) : M W A :=
  fun st =>
    let '(w, tr) := st in
    let '(r, w') := call w in
    let st' := (w', (tr ++ [ev])%list) in
    match r with
    | inl e => (Threw e, st')
    | inr a => (Returned a, st')
    end.

(** A synchronous library call that may throw. *)
Definition of_sum {W A} (r : Exn + A) : M W A :=
  match r with
  | inl e => throw e
  | inr a => ret a
  end.

Definition outcome {W A} (r : Outcome A * St W) : Outcome A := fst r.
Definition world {W A} (r : Outcome A * St W) : W := fst (snd r).
Definition trace {W A} (r : Outcome A * St W) : list Event := snd (snd r).

(* ================================================================== *)
(** ** The service: validation and fetching                            *)
(* ================================================================== *)

Section Service.

Context {W : Type}.
Variable P : Platform W.

Definition blocked_message (ip : string) : string :=
  "Access to IP " ++ ip ++ " is blocked for security reasons".

Definition metadata_message : string := "Access to metadata services is blocked".

Definition unresolved_message (hostname : string) : string :=
  "Unable to resolve hostname: " ++ hostname.

Definition protocol_message : string := "Only HTTP and HTTPS protocols are allowed".

Definition port_message (port : option Z) : string :=
  "Port " ++ showNumber port ++ " is not allowed".

(** Body of the loop over the IPv4 answers. *)
Definition check_ipv4 (ip : string) : M W unit :=
  if isBlockedIP ip then throw (JsError (blocked_message ip))
  else if has METADATA_IPS ip then throw (JsError metadata_message)
  else ret tt.

(** Body of the loop over the IPv6 answers. *)
Definition check_ipv6 (ip : string) : M W unit :=
  if isBlockedIP ip then throw (JsError (blocked_message ip))
  else ret tt.

(** The inner [try { ... ipv4Success = true } catch (dnsError) { }]:
    the value is [ipv4Success] after the statement. *)
Definition try_ipv4 (hostname : string) : M W bool :=
  try_catch
    (ipv4Addresses <- await (EvResolve4 hostname) (dnsResolve4 P hostname) ;;
     for_of ipv4Addresses check_ipv4 ;;
     ret true)
    (fun dnsError => ret false).

Definition try_ipv6 (hostname : string) : M W bool :=
  try_catch
    (ipv6Addresses <- await (EvResolve6 hostname) (dnsResolve6 P hostname) ;;
     for_of ipv6Addresses check_ipv6 ;;
     ret true)
    (fun dnsError => ret false).

Definition validateHostname (hostname : string) : M W unit :=
  if isIPAddress hostname then
    if isBlockedIP hostname then throw (JsError (blocked_message hostname))
    else if has METADATA_IPS hostname then throw (JsError metadata_message)
    else ret tt
  else
    try_catch
      (ipv4Success <- try_ipv4 hostname ;;
       ipv6Success <- try_ipv6 hostname ;;
       if negb ipv4Success && negb ipv6Success
       then throw (JsError (unresolved_message hostname))
       else ret tt)
      (fun error =>
         if instanceofError error then throw error
         else throw (JsError ("DNS resolution failed for hostname: " ++ hostname))).

Definition protocol_allowed (u : URL) : bool :=
  existsb (String.eqb (protocol u)) ["http:"; "https:"].

(** [parsedUrl.port ? parseInt(parsedUrl.port)
                    : (parsedUrl.protocol === 'https:' ? 443 : 80)] *)
Definition effective_port (u : URL) : option Z :=
  match port u with
  | String _ _ => parseInt (port u)
  | EmptyString => if String.eqb (protocol u) "https:" then Some 443%Z else Some 80%Z
  end.

Definition validateAndSanitizeUrl (url : string) : M W string :=
  parsedUrl <- try_catch (of_sum (new_URL P url None))
                 (fun error => throw (JsError "Invalid URL format")) ;;
  if negb (protocol_allowed parsedUrl) then throw (JsError protocol_message)
  else
    let port := effective_port parsedUrl in
    if negb (has_number ALLOWED_PORTS port) then throw (JsError (port_message port))
    else
      validateHostname (hostname parsedUrl) ;;
      ret (href parsedUrl).

(** axios settles a response by [validateStatus]: a rejected status
    becomes an axios error that carries the response status. *)
Definition settle (validateStatus : Z -> bool) (r : Response) : M W Response :=
  if validateStatus (status r) then ret r
  else throw (AxiosError ("Request failed with status code " ++ showZ (status r))
                (Some (if (status r <? 500)%Z then "ERR_BAD_REQUEST" else "ERR_BAD_RESPONSE"))
                (Some (status r))).

Definition axios_head (url : string) (validateStatus : Z -> bool) : M W Response :=
  r <- await (EvHead url) (transport_head P url) ;; settle validateStatus r.

Definition axios_get (url : string) (validateStatus : Z -> bool) : M W Response :=
  r <- await (EvGet url) (transport_get P url) ;; settle validateStatus r.

(** [parseInt(contentLength) > MAX_CONTENT_LENGTH]; a comparison with
    [NaN] is false. *)
Definition exceeds (n : option Z) (bound : Z) : bool :=
  match n with
  | Some z => (bound <? z)%Z
  | None => false
  end.

Definition preflightCheck (url : string) : M W unit :=
  try_catch
    (response <- axios_head url (fun status => (status <? 400)%Z) ;;
     let contentType := header (headers response) "content-type" in
     (if truthy contentType
         && negb (includes (match contentType with Some c => c | None => "" end) "text/html")
      then throw (JsError "URL does not serve HTML content")
      else ret tt) ;;
     let contentLength := header (headers response) "content-length" in
     if truthy contentLength
        && exceeds (parseInt (match contentLength with Some c => c | None => "" end))
             MAX_CONTENT_LENGTH
     then throw (JsError ("Content too large ("
                          ++ match contentLength with Some c => c | None => "" end
                          ++ " bytes). Maximum allowed: "
                          ++ showZ MAX_CONTENT_LENGTH ++ " bytes"))
     else ret tt)
    (fun error =>
       if isAxiosError error && status_is error 405 then ret tt
       else throw error).

(** The [catch] clause of [fetchHTML]. *)
Definition fetch_handler {A} (error : Exn) : M W A :=
  if isAxiosError error && code_is error "ENOTFOUND"
  then throw (JsError "Website not found. Please check the URL and try again.")
  else if isAxiosError error && code_is error "ECONNREFUSED"
  then throw (JsError "Connection refused. The website may be down.")
  else if isAxiosError error && status_is error 403
  then throw (JsError "Access denied. The website is blocking our analysis tool.")
  else if isAxiosError error && status_is error 404
  then throw (JsError "Page not found. Please check the URL.")
  else if isAxiosError error && code_is error "ETIMEDOUT"
  then throw (JsError "Request timed out. The website is taking too long to respond.")
  else throw (JsError ("Failed to fetch website: "
                       ++ (if instanceofError error then message_of error
                           else "Unknown error"))).

Definition is_redirect_status (st : Z) : bool := (300 <=? st)%Z && (st <? 400)%Z.

(** What the [try] block of [fetchHTML] produces: the document, or the
    validated redirect target of [return this.fetchHTML(target)]. *)
Inductive FetchStep : Type :=
| Document (html : string)
| Follow (validatedRedirectUrl : string).

(** [fetchHTML] calls itself on the redirect target; [fuel] bounds the
    depth of that recursion.  [return this.fetchHTML(...)] hands the
    promise of the recursive call to the caller without awaiting it
    inside [try], so a rejection of the recursive call does not pass
    through the [catch] clause of the calling activation. *)
Fixpoint fetchHTML (fuel : nat) (url : string) : M W string :=
  match fuel with
  | O => fun st => (OutOfFuel, st)
  | S fuel' =>
      step <- try_catch
        (response <- axios_get url
                       (fun status => (status <? 400)%Z || is_redirect_status status) ;;
         let location := header (headers response) "location" in
         if is_redirect_status (status response) && truthy location
         then
           target <- of_sum (new_URL P (match location with Some l => l | None => "" end)
                               (Some url)) ;;
           let redirectUrl := href target in
           validatedRedirectUrl <- validateAndSanitizeUrl redirectUrl ;;
           ret (Follow validatedRedirectUrl)
         else
           let contentType := header (headers response) "content-type" in
           if truthy contentType
              && negb (includes (match contentType with Some c => c | None => "" end)
                         "text/html")
              && negb (includes (match contentType with Some c => c | None => "" end)
                         "application/xhtml+xml")
           then throw (JsError ("URL does not serve HTML content (Content-Type: "
                                ++ match contentType with Some c => c | None => "" end
                                ++ ")"))
           else ret (Document (data response)))
        fetch_handler ;;
      match step with
      | Document html => ret html
      | Follow validatedRedirectUrl => fetchHTML fuel' validatedRedirectUrl
      end
  end.

End Service.

(* ================================================================== *)
(** ** The service: extraction and scoring                             *)
(* ================================================================== *)

Record HTMLMetaData : Type := mkMeta {
  title : option string;
  description : option string;
  ogTitle : option string;
  ogDescription : option string;
  ogImage : option string;
  twitterTitle : option string;
  twitterDescription : option string;
  twitterImage : option string;
  canonical : option string;
  robots : option string;
  viewport : option string
}.

Module IssueType.
Inductive t : Type := error | warning | success.
Definition eqb (a b : t) : bool :=
  match a, b with
  | error, error | warning, warning | success, success => true
  | _, _ => false
  end.
End IssueType.

Module TagStatus.
Inductive t : Type := good | warning | missing.
End TagStatus.

Record SEOIssue : Type := mkIssue {
  issue_type : IssueType.t;
  issue_message : string
}.

Record MetaTag : Type := mkTag {
  tag_name : string;
  tag_content : string;
  tag_status : TagStatus.t;
  tag_recommendation : option string
}.

(** The three locals of [calculateSEOScore]: [score], [issues], [tags]. *)
Record Report : Type := mkReport {
  score : Z;
  issues : list SEOIssue;
  tags : list MetaTag
}.

Definition sub_score (n : Z) (r : Report) : Report :=
  mkReport (score r - n) (issues r) (tags r).

Definition push_issue (i : SEOIssue) (r : Report) : Report :=
  mkReport (score r) (issues r ++ [i])%list (tags r).

Definition push_tag (t : MetaTag) (r : Report) : Report :=
  mkReport (score r) (issues r) (tags r ++ [t])%list.

(** The value of a field known to be truthy. *)
Definition str (v : option string) : string :=
  match v with
  | Some s => s
  | None => ""
  end.

Definition strlen (s : string) : Z := Z.of_nat (String.length s).

Section Scoring.

Variable metaData : HTMLMetaData.

Definition score_title (r : Report) : Report :=
  if truthy (title metaData) then
    let titleLength := strlen (str (title metaData)) in
    if (titleLength <? 30)%Z then
      push_tag (mkTag "title" (str (title metaData)) TagStatus.warning
                  (Some "Title should be 30-60 characters long for optimal display in search results"))
        (push_issue (mkIssue IssueType.warning
                       ("Title too short (" ++ showZ titleLength ++ " chars)"))
           (sub_score 15 r))
    else if (60 <? titleLength)%Z then
      push_tag (mkTag "title" (str (title metaData)) TagStatus.warning
                  (Some "Title should be 30-60 characters long to avoid truncation in search results"))
        (push_issue (mkIssue IssueType.warning
                       ("Title too long (" ++ showZ titleLength ++ " chars)"))
           (sub_score 10 r))
    else
      push_tag (mkTag "title" (str (title metaData)) TagStatus.good None)
        (push_issue (mkIssue IssueType.success "Title tag length is optimal") r)
  else
    push_tag (mkTag "title" "" TagStatus.missing
                (Some "Add a unique, descriptive title tag (30-60 characters) to help search engines understand your page"))
      (push_issue (mkIssue IssueType.error "Missing title tag") (sub_score 25 r)).

Definition score_description (r : Report) : Report :=
  if truthy (description metaData) then
    let descLength := strlen (str (description metaData)) in
    if (descLength <? 120)%Z then
      push_tag (mkTag "description" (str (description metaData)) TagStatus.warning
                  (Some "Meta description should be 120-160 characters for optimal SERP display"))
        (push_issue (mkIssue IssueType.warning
                       ("Meta description too short (" ++ showZ descLength ++ " chars)"))
           (sub_score 10 r))
    else if (160 <? descLength)%Z then
      push_tag (mkTag "description" (str (description metaData)) TagStatus.warning
                  (Some "Meta description should be 120-160 characters to avoid truncation"))
        (push_issue (mkIssue IssueType.warning
                       ("Meta description too long (" ++ showZ descLength ++ " chars)"))
           (sub_score 8 r))
    else
      push_tag (mkTag "description" (str (description metaData)) TagStatus.good None)
        (push_issue (mkIssue IssueType.success "Meta description length is optimal") r)
  else
    push_tag (mkTag "description" "" TagStatus.missing
                (Some "Add a compelling meta description (120-160 characters) to improve click-through rates"))
      (push_issue (mkIssue IssueType.error "Missing meta description") (sub_score 20 r)).

Definition score_open_graph (r : Report) : Report :=
  if truthy (ogTitle metaData) && truthy (ogDescription metaData) then
    push_tag (mkTag "og:description" (str (ogDescription metaData)) TagStatus.good None)
      (push_tag (mkTag "og:title" (str (ogTitle metaData)) TagStatus.good None)
         (push_issue (mkIssue IssueType.success "Open Graph tags configured") r))
  else
    let r := push_issue (mkIssue IssueType.warning "Incomplete Open Graph tags")
               (sub_score 15 r) in
    let r := if negb (truthy (ogTitle metaData))
             then push_tag (mkTag "og:title" "" TagStatus.missing
                              (Some "Add Open Graph title for better social media sharing")) r
             else r in
    if negb (truthy (ogDescription metaData))
    then push_tag (mkTag "og:description" "" TagStatus.missing
                     (Some "Add Open Graph description for better social media sharing")) r
    else r.

Definition score_og_image (r : Report) : Report :=
  if truthy (ogImage metaData) then
    push_tag (mkTag "og:image" (str (ogImage metaData)) TagStatus.good None) r
  else
    push_tag (mkTag "og:image" "" TagStatus.missing
                (Some "Add an Open Graph image (1200x630px recommended) for better social media sharing"))
      (push_issue (mkIssue IssueType.warning "Missing Open Graph image") (sub_score 10 r)).

Definition score_canonical (r : Report) : Report :=
  if truthy (canonical metaData) then
    push_tag (mkTag "canonical" (str (canonical metaData)) TagStatus.good None)
      (push_issue (mkIssue IssueType.success "Canonical URL specified") r)
  else
    push_tag (mkTag "canonical" "" TagStatus.missing
                (Some "Add canonical URL to avoid duplicate content issues"))
      (push_issue (mkIssue IssueType.warning "Missing canonical URL") (sub_score 8 r)).

Definition score_viewport (r : Report) : Report :=
  if truthy (viewport metaData) then
    push_tag (mkTag "viewport" (str (viewport metaData)) TagStatus.good None) r
  else
    push_tag (mkTag "viewport" "" TagStatus.missing
                (Some "Add viewport meta tag for mobile responsiveness"))
      (push_issue (mkIssue IssueType.warning "Missing viewport meta tag") (sub_score 5 r)).

Definition score_robots (r : Report) : Report :=
  if truthy (robots metaData) then
    push_tag (mkTag "robots" (str (robots metaData)) TagStatus.good None) r
  else
    push_tag (mkTag "robots" "" TagStatus.missing
                (Some "Consider adding robots meta tag to control search engine crawling")) r.

(** The sections of [calculateSEOScore] in source order, then
    [score = Math.max(0, score)]. *)
Definition calculateSEOScore (url : string) : Report :=
  let r := mkReport 100 [] [] in
  let r := score_title r in
  let r := score_description r in
  let r := score_open_graph r in
  let r := score_og_image r in
  let r := score_canonical r in
  let r := score_viewport r in
  let r := score_robots r in
  mkReport (Z.max 0 (score r)) (issues r) (tags r).

End Scoring.

Record SEOAnalysisResponse : Type := mkAnalysis {
  analysis_url : string;
  analysis_meta : HTMLMetaData;
  analysis_score : Z;
  analysis_issues : list SEOIssue;
  analysis_tags : list MetaTag;
  analyzedAt : string
}.

Section Analysis.

Context {W : Type}.
Variable P : Platform W.

Definition dquote : string := String (ascii_of_nat 34) EmptyString.

(** [meta[name=...]], [meta[property=...]], [link[rel=...]] selectors. *)
Definition selector (element attribute value : string) : string :=
  element ++ "[" ++ attribute ++ "=" ++ dquote ++ value ++ dquote ++ "]".

(** [$(sel).attr(name)?.trim() || undefined] *)
Definition attr_of (html sel name : string) : option string :=
  or_undefined (option_map trim (cheerio_attr P html sel name)).

Definition parseMetaTags (html : string) : HTMLMetaData :=
  {| title := or_undefined (Some (trim (cheerio_first_text P html "title")));
     description := attr_of html (selector "meta" "name" "description") "content";
     robots := attr_of html (selector "meta" "name" "robots") "content";
     viewport := attr_of html (selector "meta" "name" "viewport") "content";
     canonical := attr_of html (selector "link" "rel" "canonical") "href";
     ogTitle := attr_of html (selector "meta" "property" "og:title") "content";
     ogDescription := attr_of html (selector "meta" "property" "og:description") "content";
     ogImage := attr_of html (selector "meta" "property" "og:image") "content";
     twitterTitle := attr_of html (selector "meta" "name" "twitter:title") "content";
     twitterDescription := attr_of html (selector "meta" "name" "twitter:description") "content";
     twitterImage := attr_of html (selector "meta" "name" "twitter:image") "content" |}.

(** [fetchHTML] as [analyzeWebsite] runs it, with the recursion depth
    bounded by [fuel].  The outer [catch] logs and rethrows. *)
Definition analyzeWebsite (fuel : nat) (url : string) : M W SEOAnalysisResponse :=
  validatedUrl <- validateAndSanitizeUrl P url ;;
  preflightCheck P validatedUrl ;;
  html <- fetchHTML P fuel validatedUrl ;;
  let metaData := parseMetaTags html in
  let report := calculateSEOScore metaData validatedUrl in
  fun st =>
    (Returned (mkAnalysis validatedUrl metaData (score report) (issues report)
                 (tags report) (now_toISOString P (fst st))), st).

End Analysis.

(* ================================================================== *)
(** ** Concrete platforms used to run the model                        *)
(* ================================================================== *)

Module Demo.

Fixpoint lookup {A} (table : list (string * A)) (key : string) : option A :=
  match table with
  | [] => None
  | (k, v) :: table' => if String.eqb k key then Some v else lookup table' key
  end.

Definition enotfound (what : string) : Exn :=
  AxiosError ("getaddrinfo ENOTFOUND " ++ what) (Some "ENOTFOUND") None.

(** A world that never changes: URLs are parsed by table (the base of
    [new URL(input, base)] is not consulted, every input of the tables
    below being absolute), DNS answers and pages are looked up, and a
    missing entry is a rejection. *)
Definition static
  (urls : list (string * URL))
  (a_records aaaa_records : list (string * list string))
  (pages : list (string * Response)) : Platform unit :=
  {| new_URL := fun input _ =>
       match lookup urls input with
       | Some u => inr u
       | None => inl (JsError "Invalid URL")
       end;
     dnsResolve4 := fun host w =>
       match lookup a_records host with
       | Some l => (inr l, w)
       | None => (inl (JsError ("queryA ENOTFOUND " ++ host)), w)
       end;
     dnsResolve6 := fun host w =>
       match lookup aaaa_records host with
       | Some l => (inr l, w)
       | None => (inl (JsError ("queryAaaa ENODATA " ++ host)), w)
       end;
     transport_get := fun url w =>
       match lookup pages url with
       | Some r => (inr r, w)
       | None => (inl (enotfound url), w)
       end;
     transport_head := fun url w =>
       match lookup pages url with
       | Some r => (inr (mkResponse (status r) (headers r) ""), w)
       | None => (inl (enotfound url), w)
       end;
     cheerio_first_text := fun _ _ => "";
     cheerio_attr := fun _ _ _ => None;
     now_toISOString := fun _ => "2025-01-01T00:00:00.000Z" |}.

Definition http_url (host path : string) : string * URL :=
  ("http://" ++ host ++ path, mkURL "http:" "" host ("http://" ++ host ++ path)).

Definition urls : list (string * URL) :=
  [ http_url "a.example" "/"; http_url "b.example" "/"; http_url "c.example" "/";
    http_url "127.0.0.1" "/"; http_url "999.1.1.1" "/";
    http_url "100.100.100.200" "/"; http_url "169.254.169.254" "/latest/meta-data/";
    ("ftp://files.example/", mkURL "ftp:" "" "files.example" "ftp://files.example/");
    ("http://a.example:8081/",
     mkURL "http:" "8081" "a.example" "http://a.example:8081/");
    ("https://a.example:8443/",
     mkURL "https:" "8443" "a.example" "https://a.example:8443/") ].

Definition redirect_to (location : string) : Response :=
  mkResponse 302 [("location", location)] "".

Definition page (html : string) : Response :=
  mkResponse 200 [("content-type", "text/html; charset=utf-8")] html.

Definition a_records : list (string * list string) :=
  [ ("a.example", ["93.184.216.34"]); ("b.example", ["93.184.216.35"]);
    ("c.example", ["93.184.216.36"]) ].

(** [a.example] redirects to [b.example], which redirects to
    [c.example], which serves a document. *)
Definition chain : Platform unit :=
  static urls a_records []
    [ ("http://a.example/", redirect_to "http://b.example/");
      ("http://b.example/", redirect_to "http://c.example/");
      ("http://c.example/", page "<html><head><title>C</title></head></html>") ].

(** [a.example] redirects to the loopback address. *)
Definition to_loopback : Platform unit :=
  static urls a_records []
    [ ("http://a.example/", redirect_to "http://127.0.0.1/");
      ("http://127.0.0.1/", page "<html>internal</html>") ].

(** Host names whose answers exercise [validateHostname]:
    [mixed.example] has a loopback A record and a public AAAA record,
    [inside.example] has only a private A record, [empty.example] gets
    an empty answer for both families, [v4only.example] has a public A
    record and no AAAA record. *)
Definition names : Platform unit :=
  static urls
    [ ("mixed.example", ["127.0.0.1"]); ("inside.example", ["10.0.0.5"]);
      ("empty.example", []); ("v4only.example", ["93.184.216.34"]) ]
    [ ("mixed.example", ["2606:4700::1111"]); ("empty.example", []) ]
    [].

Definition st0 : St unit := (tt, []).

Definition sample_title : string := "Example Domain: a page to test meta tags with".

Definition sample_meta : HTMLMetaData :=
  {| title := Some sample_title;
     description := None;
     ogTitle := Some "Example Domain";
     ogDescription := Some "A page used in documentation";
     ogImage := Some "https://example.com/og.png";
     twitterTitle := None;
     twitterDescription := None;
     twitterImage := None;
     canonical := None;
     robots := None;
     viewport := Some "width=device-width, initial-scale=1" |}.

End Demo.

(* ================================================================== *)
(** ** Vocabulary of the properties                                    *)
(* ================================================================== *)

(** An IPv4 answer passes when no address is blocked or a metadata
    address; an IPv6 answer passes when no address is blocked. *)
Definition clean4 (l : list string) : bool :=
  forallb (fun ip => negb (isBlockedIP ip) && negb (has METADATA_IPS ip)) l.

Definition clean6 (l : list string) : bool :=
  forallb (fun ip => negb (isBlockedIP ip)) l.

Definition rejected {A} (r : Exn + A) : Prop :=
  match r with
  | inl _ => True
  | inr _ => False
  end.

(** The flag [ipv4Success] / [ipv6Success] after each inner [try]. *)
Definition success4 (r : Exn + list string) : bool :=
  match r with
  | inl _ => false
  | inr l => clean4 l
  end.

Definition success6 (r : Exn + list string) : bool :=
  match r with
  | inl _ => false
  | inr l => clean6 l
  end.

(** The port the specification speaks of: the explicit port of the URL read as
    a number, or the default port of its scheme when none is given. *)
Definition explicit_or_default_port (u : URL) (p : Z) : Prop :=
  (port u <> "" /\ parseInt (port u) = Some p)
  \/ (port u = "" /\ protocol u = "https:" /\ p = 443%Z)
  \/ (port u = "" /\ protocol u = "http:" /\ p = 80%Z).

(** One to three decimal digits: the shape [\d{1,3}] of an octet. *)
Definition all_digits (s : string) : bool :=
  forallb is_digit (list_ascii_of_string s).

Definition octet_shape (o : string) : Prop :=
  (1 <= String.length o <= 3)%nat /\ all_digits o = true.

Definition dotted (o1 o2 o3 o4 : string) : string :=
  o1 ++ "." ++ o2 ++ "." ++ o3 ++ "." ++ o4.

(** A failed attempt for one address family in the specification's
    sense: the resolver rejects, or it answers with zero addresses. *)
Definition family_failed (r : Exn + list string) : Prop :=
  match r with
  | inl _ => True
  | inr [] => True
  | inr (_ :: _) => False
  end.

(** The bodies of the range patterns, each of which starts with [^]. *)
Definition blocked_bodies : list regex :=
  map (fun r => match r with Cat Bol r' => r' | _ => r end) BLOCKED_IP_RANGES.

Definition blocked_at_start (ip : string) : bool :=
  existsb (fun r => rmatch r true ip (fun _ _ => true)) blocked_bodies.

(** Dotted-decimal text of an IPv4 address. *)
Definition ipv4_text (a b c d : Z) : string :=
  dotted (showZ a) (showZ b) (showZ c) (showZ d).

Definition octets : list Z := map Z.of_nat (List.seq 0 256).

(** Ranges of the table that are decided by the first two octets:
    0/8, 10/8, 100.64/10, 127/8, 169.254/16, 172.16/12, 192.168/16,
    198.18/15 and 224/4. *)
Definition in_prefix_range (a b : Z) : bool :=
  ((a =? 0) || (a =? 10) || ((a =? 100) && (64 <=? b) && (b <=? 127)) || (a =? 127)
   || ((a =? 169) && (b =? 254)) || ((a =? 172) && (16 <=? b) && (b <=? 31))
   || ((a =? 192) && (b =? 168)) || ((a =? 198) && (18 <=? b) && (b <=? 19))
   || ((224 <=? a) && (a <=? 239)))%Z.

(** The IPv4 ranges the table is meant to cover: the above, 192.0.0/24
    and 255.255.255.255/32. *)
Definition in_listed_ipv4_range (a b c d : Z) : bool :=
  (in_prefix_range a b
   || ((a =? 192) && (b =? 0) && (c =? 0))
   || ((a =? 255) && (b =? 255) && (c =? 255) && (d =? 255)))%Z.

(** Membership of an IPv6 text in fc00::/7 and in fe80::/10, read off
    the value of its first group: the top 7, respectively 10, bits of
    the 16-bit group. *)
Definition first_group (ip : string) : option Z := parse_digits 16 ip None.

Definition in_fc00_7 (ip : string) : bool :=
  match first_group ip with
  | Some v => (Z.shiftr v 9 =? Z.shiftr 0xfc00 9)%Z
  | None => false
  end.

Definition in_fe80_10 (ip : string) : bool :=
  match first_group ip with
  | Some v => (Z.shiftr v 6 =? Z.shiftr 0xfe80 6)%Z
  | None => false
  end.

Definition count_type (t : IssueType.t) (l : list SEOIssue) : nat :=
  List.length (filter (fun i => IssueType.eqb (issue_type i) t) l).

(* ================================================================== *)
(** ** The route, and the display helpers of the client                *)
(* ================================================================== *)

(** The match that [String.prototype.replace] looks for with a regular
    expression without flags: the same backtracking as [rmatch], in the
    same order of preference (more repetitions first, left alternative
    first), but the continuation receives the input left after the
    match. *)
Fixpoint rfind (r : regex) (bol : bool) (s : string)
  (k : bool -> string -> option string) {struct r} : option string :=
  match r with
  | Eps => k bol s
  | Bol => if bol then k bol s else None
  | Eol => match s with EmptyString => k bol s | String _ _ => None end
  | Chr c =>
      match s with
      | String c' s' => if Ascii.eqb c c' then k false s' else None
      | EmptyString => None
      end
  | Digit =>
      match s with
      | String c' s' => if is_digit c' then k false s' else None
      | EmptyString => None
      end
  | Cls ranges =>
      match s with
      | String c' s' => if in_class ranges c' then k false s' else None
      | EmptyString => None
      end
  | Cat r1 r2 => rfind r1 bol s (fun b' s' => rfind r2 b' s' k)
  | Alt r1 r2 =>
      match rfind r1 bol s k with
      | Some rest => Some rest
      | None => rfind r2 bol s k
      end
  | Rep r0 lo hi =>
      (fix rep (n lo : nat) (bol : bool) (s : string) {struct n} : option string :=
         match n with
         | O => if (lo =? 0)%nat then k bol s else None
         | S n' =>
             match rfind r0 bol s (fun b' s' => rep n' (pred lo) b' s') with
             | Some rest => Some rest
             | None => if (lo =? 0)%nat then k bol s else None
             end
         end) hi lo bol s
  end.

(** The leftmost match replaced by [replacement]; [None] when the
    pattern matches nowhere. *)
Fixpoint replace_from (r : regex) (replacement : string) (bol : bool) (s : string)
  : option string :=
  match rfind r bol s (fun _ rest => Some rest) with
  | Some rest => Some (replacement ++ rest)
  | None =>
      match s with
      | EmptyString => None
      | String c s' => option_map (String c) (replace_from r replacement false s')
      end
  end.

(** [s.replace(r, replacement)] for a pattern without the [g] flag and
    a replacement without [$] patterns. *)
Definition replace (r : regex) (replacement : string) (s : string) : string :=
  match replace_from r replacement true s with
  | Some s' => s'
  | None => s
  end.

(** [s.split(sep)[0]] for a one-character separator. *)
Fixpoint split_first (sep : ascii) (s : string) : string :=
  match s with
  | EmptyString => EmptyString
  | String c s' => if Ascii.eqb c sep then EmptyString else String c (split_first sep s')
  end.

(** [/^https?:\/\//] *)
Definition re_scheme : regex :=
  cats [Bol; Str "http"; Rep (Chr "s") 0 1; Str "://"].

(** [/\/$/] *)
Definition re_trailing_slash : regex := cats [Chr "/"; Eol].

Module GooglePreview.

Definition displayUrl (url : string) : string :=
  replace re_trailing_slash "" (replace re_scheme "" url).

Definition domain (url : string) : string := split_first "/" (displayUrl url).

(** [{title || 'No title tag found'}] and
    [{description || 'No meta description found'}] *)
Definition titleText (title : option string) : string :=
  if truthy title then str title else "No title tag found".

Definition descriptionText (description : option string) : string :=
  if truthy description then str description else "No meta description found".

(** Whether the [Optimized] badge is rendered. *)
Definition optimized (title description : option string) : bool :=
  truthy title && truthy description.

End GooglePreview.

Module SocialPreview.

Definition domain (url : string) : string :=
  split_first "/" (replace re_scheme "" url).

End SocialPreview.

Module SEOScore.

Definition getScoreColor (score : Z) : string :=
  if (80 <=? score)%Z then "text-success"
  else if (60 <=? score)%Z then "text-warning"
  else "text-error".

Definition getScoreBackground (score : Z) : string :=
  if (80 <=? score)%Z then "bg-success/10"
  else if (60 <=? score)%Z then "bg-warning/10"
  else "bg-error/10".

(** The class of the progress bar, written inline in the markup. *)
Definition barClass (score : Z) : string :=
  if (80 <=? score)%Z then "bg-success"
  else if (60 <=? score)%Z then "bg-warning"
  else "bg-error".

Definition getIssueVariant (type : IssueType.t) : string :=
  match type with
  | IssueType.success => "default"
  | IssueType.warning => "secondary"
  | IssueType.error => "destructive"
  end.

(** Whether the [No issues found] line is rendered. *)
Definition showsNoIssues (issues : list SEOIssue) : bool :=
  (List.length issues =? 0)%nat.

End SEOScore.

Module ThemeToggle.

(** The component state [isDark], the [theme] entry of [localStorage]
    and the presence of the class [dark] on the document element. *)
Record State : Type := mkState {
  isDark : bool;
  stored : option string;
  htmlDark : bool
}.

(** The effect that runs on mount. *)
Definition mount (prefersDark : bool) (st : State) : State :=
  let shouldBeDark :=
    match stored st with
    | Some theme => String.eqb theme "dark"
    | None => false
    end
    || (match stored st with None => true | Some _ => false end && prefersDark) in
  mkState shouldBeDark (stored st) shouldBeDark.

Definition toggleTheme (st : State) : State :=
  let newIsDark := negb (isDark st) in
  mkState newIsDark (Some (if newIsDark then "dark" else "light")) newIsDark.

(** A freshly loaded page: [useState(false)], then the mount effect. *)
Definition load (prefersDark : bool) (storage : option string) (htmlDark : bool) : State :=
  mount prefersDark (mkState false storage htmlDark).

End ThemeToggle.

(** The answers of [POST /api/analyze]. *)
Inductive RouteResponse (Details : Type) : Type :=
| Json200 (analysis : SEOAnalysisResponse)
| Json400 (error : string) (details : Details)
| Json500 (error : string) (message : string).

Arguments Json200 {Details}.
Arguments Json400 {Details}.
Arguments Json500 {Details}.

Definition status_code {Details} (r : RouteResponse Details) : Z :=
  match r with
  | Json200 _ => 200%Z
  | Json400 _ _ => 400%Z
  | Json500 _ _ => 500%Z
  end.

Section Route.

Context {W : Type}.
Variable P : Platform W.

(** [seoAnalysisRequestSchema.safeParse(req.body)] of zod: the parsed
    [url] on success, the error list otherwise. *)
Context {Body Details : Type}.
Variable safeParse : Body -> Details + string.

(** The handler of [POST /api/analyze]; [fuel] bounds the redirects
    followed by the analysis. *)
Definition post_analyze (fuel : nat) (body : Body) : M W (RouteResponse Details) :=
  try_catch
    (match safeParse body with
     | inl details => ret (Json400 "Invalid request" details)
     | inr url =>
         analysis <- analyzeWebsite P fuel url ;;
         ret (Json200 analysis)
     end)
    (fun error =>
       let errorMessage :=
         if instanceofError error then message_of error
         else "An unexpected error occurred" in
       ret (Json500 "Analysis failed" errorMessage)).

End Route.

(* ================================================================== *)
(** ** Vocabulary of the further properties                            *)
(* ================================================================== *)


(** The content types [fetchHTML] lets through, and the ones
    [preflightCheck] lets through. *)
Definition fetch_accepts (contentType : option string) : bool :=
  negb (truthy contentType)
  || includes (str contentType) "text/html"
  || includes (str contentType) "application/xhtml+xml".

Definition preflight_accepts_type (contentType : option string) : bool :=
  negb (truthy contentType) || includes (str contentType) "text/html".

Definition preflight_accepts_length (contentLength : option string) : bool :=
  negb (truthy contentLength)
  || negb (exceeds (parseInt (str contentLength)) MAX_CONTENT_LENGTH).

(** What axios makes of the answer of the transport. *)
Definition settled (validateStatus : Z -> bool) (r : Exn + Response) : Exn + Response :=
  match r with
  | inl e => inl e
  | inr resp =>
      if validateStatus (status resp) then inr resp
      else inl (AxiosError ("Request failed with status code " ++ showZ (status resp))
                  (Some (if (status resp <? 500)%Z then "ERR_BAD_REQUEST"
                         else "ERR_BAD_RESPONSE"))
                  (Some (status resp)))
  end.

(** The [try] statement of one activation of [fetchHTML], up to its
    [catch] clause. *)
Definition fetch_attempt {W : Type} (P : Platform W) (url : string) : M W FetchStep :=
  try_catch
    (response <- axios_get P url
                   (fun status => (status <? 400)%Z || is_redirect_status status) ;;
     let location := header (headers response) "location" in
     if is_redirect_status (status response) && truthy location
     then
       target <- of_sum (new_URL P (match location with Some l => l | None => "" end)
                           (Some url)) ;;
       let redirectUrl := href target in
       validatedRedirectUrl <- validateAndSanitizeUrl P redirectUrl ;;
       ret (Follow validatedRedirectUrl)
     else
       let contentType := header (headers response) "content-type" in
       if truthy contentType
          && negb (includes (match contentType with Some c => c | None => "" end)
                     "text/html")
          && negb (includes (match contentType with Some c => c | None => "" end)
                     "application/xhtml+xml")
       then throw (JsError ("URL does not serve HTML content (Content-Type: "
                            ++ match contentType with Some c => c | None => "" end
                            ++ ")"))
       else ret (Document (data response)))
    fetch_handler.

(** The message [fetchHTML] gives for a response status of 400 or more. *)
Definition status_failure_message (st : Z) : string :=
  if (st =? 403)%Z then "Access denied. The website is blocking our analysis tool."
  else if (st =? 404)%Z then "Page not found. Please check the URL."
  else "Failed to fetch website: Request failed with status code " ++ showZ st.

(** The message [fetchHTML] gives when the transport fails with an
    axios error that carries a code and no response. *)
Definition network_failure_message (code message : string) : string :=
  if String.eqb code "ENOTFOUND"
  then "Website not found. Please check the URL and try again."
  else if String.eqb code "ECONNREFUSED"
  then "Connection refused. The website may be down."
  else if String.eqb code "ETIMEDOUT"
  then "Request timed out. The website is taking too long to respond."
  else "Failed to fetch website: " ++ message.

(** A chain of [n] redirects from [url], each target accepted by the
    sanitizer, ending in a document [html]; the states are those of the
    request before and after. *)
Inductive redirect_chain {W : Type} (P : Platform W)
  : nat -> string -> St W -> string -> St W -> Prop :=
| chain_document (url : string) (w w1 : W) (tr : list Event) (resp : Response) :
    transport_get P url w = (inr resp, w1) ->
    (status resp < 400)%Z ->
    is_redirect_status (status resp) && truthy (header (headers resp) "location") = false ->
    fetch_accepts (header (headers resp) "content-type") = true ->
    redirect_chain P 0 url (w, tr) (data resp) (w1, (tr ++ [EvGet url])%list)
| chain_hop (n : nat) (url loc validated html : string) (w w1 : W) (tr : list Event)
    (resp : Response) (target : URL) (st2 st3 : St W) :
    transport_get P url w = (inr resp, w1) ->
    is_redirect_status (status resp) = true ->
    header (headers resp) "location" = Some loc -> loc <> "" ->
    new_URL P loc (Some url) = inr target ->
    validateAndSanitizeUrl P (href target) (w1, (tr ++ [EvGet url])%list)
    = (Returned validated, st2) ->
    redirect_chain P n validated st2 html st3 ->
    redirect_chain P (S n) url (w, tr) html st3.

Definition starts_with_space (s : string) : bool :=
  match s with
  | String c _ => is_space c
  | EmptyString => false
  end.

Fixpoint ends_with_space (s : string) : bool :=
  match s with
  | EmptyString => false
  | String c EmptyString => is_space c
  | String _ s' => ends_with_space s'
  end.

(** A value [parseMetaTags] may store in a field: [undefined], or a
    string that is not empty and has no white space at either end. *)
Definition field_ok (v : option string) : Prop :=
  match v with
  | None => True
  | Some s => s <> "" /\ starts_with_space s = false /\ ends_with_space s = false
  end.

Definition meta_fields (m : HTMLMetaData) : list (option string) :=
  [ title m; description m; ogTitle m; ogDescription m; ogImage m;
    twitterTitle m; twitterDescription m; twitterImage m;
    canonical m; robots m; viewport m ].

(** The penalty of each section of the scorer. *)
Definition title_penalty (m : HTMLMetaData) : Z :=
  if truthy (title m) then
    if (strlen (str (title m)) <? 30)%Z then 15%Z
    else if (60 <? strlen (str (title m)))%Z then 10%Z else 0%Z
  else 25%Z.

Definition description_penalty (m : HTMLMetaData) : Z :=
  if truthy (description m) then
    if (strlen (str (description m)) <? 120)%Z then 10%Z
    else if (160 <? strlen (str (description m)))%Z then 8%Z else 0%Z
  else 20%Z.

Definition open_graph_penalty (m : HTMLMetaData) : Z :=
  if truthy (ogTitle m) && truthy (ogDescription m) then 0%Z else 15%Z.

Definition og_image_penalty (m : HTMLMetaData) : Z :=
  if truthy (ogImage m) then 0%Z else 10%Z.

Definition canonical_penalty (m : HTMLMetaData) : Z :=
  if truthy (canonical m) then 0%Z else 8%Z.

Definition viewport_penalty (m : HTMLMetaData) : Z :=
  if truthy (viewport m) then 0%Z else 5%Z.

(** The names of the Open Graph entries of the tag report. *)
Definition open_graph_tag_names (m : HTMLMetaData) : list string :=
  if truthy (ogTitle m) && truthy (ogDescription m)
  then ["og:title"; "og:description"]
  else ((if truthy (ogTitle m) then [] else ["og:title"])
        ++ (if truthy (ogDescription m) then [] else ["og:description"]))%list.

(** What every entry of the tag report satisfies: the content is empty
    exactly for a missing tag, and a recommendation is absent exactly
    for a good one. *)
Definition tag_ok (t : MetaTag) : Prop :=
  (tag_content t = "" <-> tag_status t = TagStatus.missing)
  /\ (tag_recommendation t = None <-> tag_status t = TagStatus.good).

(** What one section of the scorer does to the report: it lowers the
    score by [penalty], appends [n_issues] issues of which [n_errors]
    are errors, and appends tags with the given [names], each of which
    satisfies [tag_ok]. *)
Definition stage_spec (stage : Report -> Report) (penalty : Z)
  (n_issues n_errors : nat) (names : list string) : Prop :=
  forall r,
    score (stage r) = (score r - penalty)%Z
    /\ exists new_issues new_tags,
         issues (stage r) = (issues r ++ new_issues)%list
         /\ tags (stage r) = (tags r ++ new_tags)%list
         /\ List.length new_issues = n_issues
         /\ count_type IssueType.error new_issues = n_errors
         /\ map tag_name new_tags = names
         /\ Forall tag_ok new_tags.

Definition total_penalty (m : HTMLMetaData) : Z :=
  (title_penalty m + description_penalty m + open_graph_penalty m
   + og_image_penalty m + canonical_penalty m + viewport_penalty m)%Z.

Definition missing (v : option string) : nat := if truthy v then 0%nat else 1%nat.

(** Two records that differ at most in their Twitter fields. *)
Definition same_scored_fields (m m' : HTMLMetaData) : Prop :=
  title m = title m' /\ description m = description m'
  /\ ogTitle m = ogTitle m' /\ ogDescription m = ogDescription m'
  /\ ogImage m = ogImage m' /\ canonical m = canonical m'
  /\ robots m = robots m' /\ viewport m = viewport m'.

Module Samples.

Definition empty_meta : HTMLMetaData :=
  mkMeta None None None None None None None None None None None.

(** A page with an Open Graph title and no Open Graph description. *)
Definition only_og_title : HTMLMetaData :=
  mkMeta (Some "A title") None (Some "A title") None None None None None None None None.

(** The same page with Twitter card tags added. *)
Definition with_twitter : HTMLMetaData :=
  mkMeta (Some "A title") None (Some "A title") None None
    (Some "A title") (Some "Shared on Twitter") (Some "https://a.example/t.png")
    None None None.

(** A request body as the route sees it: with or without a [url]. *)
Definition safeParse (body : option string) : unit + string :=
  match body with
  | Some url => inr url
  | None => inl tt
  end.

(** A page whose title and description come surrounded by white space,
    and whose og:title is blank. *)
Definition padded_page : Platform unit :=
  {| new_URL := fun _ _ => inl (JsError "Invalid URL");
     dnsResolve4 := fun _ w => (inl (JsError "ENOTFOUND"), w);
     dnsResolve6 := fun _ w => (inl (JsError "ENOTFOUND"), w);
     transport_get := fun _ w => (inl (JsError "ENOTFOUND"), w);
     transport_head := fun _ w => (inl (JsError "ENOTFOUND"), w);
     cheerio_first_text := fun _ sel =>
       if String.eqb sel "title" then "  Padded title  " else "";
     cheerio_attr := fun _ sel _ =>
       if String.eqb sel (selector "meta" "name" "description")
       then Some " A description "
       else if String.eqb sel (selector "meta" "property" "og:title")
       then Some "   "
       else None;
     now_toISOString := fun _ => "2025-01-01T00:00:00.000Z" |}.

End Samples.

(* ================================================================== *)
(** ** Properties of the classifier tables                             *)
(* ================================================================== *)

Arguments has : simpl never.
Arguments isBlockedIP : simpl never.
Arguments isIPAddress : simpl never.

Lemma has_In (set : list string) (x : string) : has set x = true <-> In x set.
Proof.
  unfold has. rewrite existsb_exists. split.
  - intros [y [Hy Heq]]. apply String.eqb_eq in Heq. now subst.
  - intros H. exists x. split; [assumption | apply String.eqb_refl].
Qed.

Lemma has_number_In (set : list Z) (n : Z) : has_number set (Some n) = true <-> In n set.
Proof.
  simpl. rewrite existsb_exists. split.
  - intros [y [Hy Heq]]. apply Z.eqb_eq in Heq. now subst.
  - intros H. exists n. split; [assumption | apply Z.eqb_refl].
Qed.

(** Every metadata address has the dotted-quad shape and is matched by
    one of the range patterns. *)
Lemma metadata_literals_are_blocked (ip : string) :
  In ip METADATA_IPS -> isIPAddress ip = true /\ isBlockedIP ip = true.
Proof.
  unfold METADATA_IPS.
  intros [H | [H | [H | []]]]; subst ip; split; vm_compute; reflexivity.
Qed.

(* ================================================================== *)
(** ** Properties of hostname validation                               *)
(* ================================================================== *)

Section HostnameProperties.

Context {W : Type}.
Variable P : Platform W.

Lemma for_of_check_ipv4 (l : list string) (st : St W) :
  for_of l (@check_ipv4 W) st
  = (if clean4 l then Returned tt
     else match find (fun ip => isBlockedIP ip || has METADATA_IPS ip) l with
          | Some ip => Threw (JsError (if isBlockedIP ip then blocked_message ip
                                       else metadata_message))
          | None => Returned tt
          end, st).
Proof.
  induction l as [| ip l IH]; simpl; [reflexivity |].
  unfold bind, check_ipv4 at 1.
  destruct (isBlockedIP ip) eqn:Hb; simpl; rewrite ?Hb; [reflexivity |].
  destruct (has METADATA_IPS ip) eqn:Hm; simpl; rewrite ?Hb; [reflexivity |].
  fold (@check_ipv4 W). rewrite IH. reflexivity.
Qed.

Lemma for_of_check_ipv6 (l : list string) (st : St W) :
  for_of l (@check_ipv6 W) st
  = (if clean6 l then Returned tt
     else match find isBlockedIP l with
          | Some ip => Threw (JsError (blocked_message ip))
          | None => Returned tt
          end, st).
Proof.
  induction l as [| ip l IH]; simpl; [reflexivity |].
  unfold bind, check_ipv6 at 1.
  destruct (isBlockedIP ip) eqn:Hb; simpl; rewrite ?Hb; [reflexivity |].
  fold (@check_ipv6 W). rewrite IH. reflexivity.
Qed.

Lemma clean4_find (l : list string) :
  clean4 l = false ->
  find (fun ip => isBlockedIP ip || has METADATA_IPS ip) l <> None.
Proof.
  induction l as [| ip l IH]; simpl; [discriminate |].
  destruct (isBlockedIP ip); simpl; [discriminate |].
  destruct (has METADATA_IPS ip); simpl; [discriminate | exact IH].
Qed.

Lemma clean6_find (l : list string) :
  clean6 l = false -> find isBlockedIP l <> None.
Proof.
  induction l as [| ip l IH]; simpl; [discriminate |].
  destruct (isBlockedIP ip); simpl; [discriminate | exact IH].
Qed.

(** Whatever happens inside the inner [try], the statement completes
    normally and only the flag records it. *)
Lemma try_ipv4_flag (h : string) (w : W) (tr : list Event) :
  try_ipv4 P h (w, tr)
  = (Returned (success4 (fst (dnsResolve4 P h w))),
     (snd (dnsResolve4 P h w), (tr ++ [EvResolve4 h])%list)).
Proof.
  unfold try_ipv4, try_catch, bind, await.
  destruct (dnsResolve4 P h w) as [[e | l] w1]; simpl; [reflexivity |].
  rewrite for_of_check_ipv4.
  destruct (clean4 l) eqn:Hc; simpl; [reflexivity |].
  destruct (find _ l) eqn:Hf; [reflexivity |].
  now apply clean4_find in Hc.
Qed.

Lemma try_ipv6_flag (h : string) (w : W) (tr : list Event) :
  try_ipv6 P h (w, tr)
  = (Returned (success6 (fst (dnsResolve6 P h w))),
     (snd (dnsResolve6 P h w), (tr ++ [EvResolve6 h])%list)).
Proof.
  unfold try_ipv6, try_catch, bind, await.
  destruct (dnsResolve6 P h w) as [[e | l] w1]; simpl; [reflexivity |].
  rewrite for_of_check_ipv6.
  destruct (clean6 l) eqn:Hc; simpl; [reflexivity |].
  destruct (find _ l) eqn:Hf; [reflexivity |].
  now apply clean6_find in Hc.
Qed.

(** A host name that is not an IP literal: both families are queried,
    IPv4 first, and the only error that can come out is the
    resolution failure. *)
Lemma validateHostname_name (h : string) (w : W) (tr : list Event) :
  isIPAddress h = false ->
  let r4 := dnsResolve4 P h w in
  let r6 := dnsResolve6 P h (snd r4) in
  validateHostname P h (w, tr)
  = (if negb (success4 (fst r4)) && negb (success6 (fst r6))
     then Threw (JsError (unresolved_message h))
     else Returned tt,
     (snd r6, (tr ++ [EvResolve4 h; EvResolve6 h])%list)).
Proof.
  intros Hlit r4 r6. unfold validateHostname. rewrite Hlit.
  unfold try_catch, bind at 1. rewrite try_ipv4_flag.
  unfold bind at 1. rewrite try_ipv6_flag. fold r4. fold r6.
  rewrite <- app_assoc. simpl.
  destruct (negb (success4 (fst r4)) && negb (success6 (fst r6))); reflexivity.
Qed.

(** An IP literal is classified on the spot. *)
Lemma validateHostname_literal (h : string) (st : St W) :
  isIPAddress h = true ->
  validateHostname P h st
  = (if isBlockedIP h then Threw (JsError (blocked_message h))
     else if has METADATA_IPS h then Threw (JsError metadata_message)
     else Returned tt, st).
Proof.
  intros Hlit. unfold validateHostname. rewrite Hlit.
  destruct (isBlockedIP h); [reflexivity |].
  destruct (has METADATA_IPS h); reflexivity.
Qed.

(** Hostname validation talks to the resolver only, never runs out of
    fuel, and throws nothing but plain [Error]s. *)
Lemma validateHostname_effects (h : string) (st : St W) :
  exists dns,
    trace (validateHostname P h st) = (snd st ++ dns)%list
    /\ forallb is_dns dns = true
    /\ (outcome (validateHostname P h st) = Returned tt
        \/ exists m, outcome (validateHostname P h st) = Threw (JsError m)).
Proof.
  destruct st as [w tr].
  destruct (isIPAddress h) eqn:Hlit.
  - rewrite validateHostname_literal by assumption.
    exists []. unfold trace, outcome. simpl. rewrite app_nil_r.
    repeat split.
    destruct (isBlockedIP h); [right; eauto |].
    destruct (has METADATA_IPS h); [right; eauto | now left].
  - rewrite validateHostname_name by assumption.
    exists [EvResolve4 h; EvResolve6 h]. unfold trace, outcome. simpl.
    repeat split.
    destruct (negb _ && negb _); [right; eauto | now left].
Qed.

End HostnameProperties.

(* ================================================================== *)
(** ** Properties of URL sanitization                                  *)
(* ================================================================== *)

Lemma protocol_allowed_iff (u : URL) :
  protocol_allowed u = true <-> protocol u = "http:" \/ protocol u = "https:".
Proof.
  unfold protocol_allowed. simpl. rewrite orb_false_r, orb_true_iff.
  rewrite !String.eqb_eq. reflexivity.
Qed.

Lemma explicit_or_default_effective (u : URL) (p : Z) :
  explicit_or_default_port u p -> effective_port u = Some p.
Proof.
  unfold effective_port.
  intros [[Hne Hp] | [[He [Hs Hp]] | [He [Hs Hp]]]].
  - destruct (port u); [contradiction | exact Hp].
  - rewrite He, Hs, Hp. reflexivity.
  - rewrite He, Hs, Hp. reflexivity.
Qed.

Section SanitizerProperties.

Context {W : Type}.
Variable P : Platform W.

Lemma sanitize_unparsable (raw : string) (e : Exn) (st : St W) :
  new_URL P raw None = inl e ->
  validateAndSanitizeUrl P raw st = (Threw (JsError "Invalid URL format"), st).
Proof.
  intros H. unfold validateAndSanitizeUrl, bind, try_catch. rewrite H. reflexivity.
Qed.

Lemma sanitize_parsed (raw : string) (u : URL) (st : St W) :
  new_URL P raw None = inr u ->
  validateAndSanitizeUrl P raw st
  = (if negb (protocol_allowed u) then throw (JsError protocol_message)
     else if negb (has_number ALLOWED_PORTS (effective_port u))
          then throw (JsError (port_message (effective_port u)))
          else validateHostname P (hostname u) ;; ret (href u)) st.
Proof.
  intros H. unfold validateAndSanitizeUrl, bind at 1, try_catch. rewrite H. reflexivity.
Qed.

(** Sanitization talks to the resolver only and throws nothing but
    plain [Error]s. *)
Lemma sanitize_effects (raw : string) (st : St W) :
  exists dns,
    trace (validateAndSanitizeUrl P raw st) = (snd st ++ dns)%list
    /\ forallb is_dns dns = true
    /\ ((exists v, outcome (validateAndSanitizeUrl P raw st) = Returned v)
        \/ exists m, outcome (validateAndSanitizeUrl P raw st) = Threw (JsError m)).
Proof.
  destruct (new_URL P raw None) as [e | u] eqn:Hparse.
  - rewrite (sanitize_unparsable _ _ _ Hparse). exists [].
    unfold trace, outcome. simpl. rewrite app_nil_r. repeat split. right. eauto.
  - rewrite (sanitize_parsed _ _ _ Hparse).
    destruct (negb (protocol_allowed u)).
    { exists []. unfold trace, outcome, throw. simpl. rewrite app_nil_r.
      repeat split. right. eauto. }
    destruct (negb (has_number ALLOWED_PORTS (effective_port u))).
    { exists []. unfold trace, outcome, throw. simpl. rewrite app_nil_r.
      repeat split. right. eauto. }
    destruct (validateHostname_effects P (hostname u) st) as [dns [Htr [Hdns Hout]]].
    exists dns. unfold trace, outcome, bind in *.
    destruct (validateHostname P (hostname u) st) as [[[] | e |] st']; simpl in *.
    + repeat split; try assumption. left. eauto.
    + repeat split; try assumption. right.
      destruct Hout as [Hout | [m Hout]]; [discriminate |]. exists m.
      inversion Hout. reflexivity.
    + destruct Hout as [Hout | [m Hout]]; discriminate.
Qed.

(** C6.  A URL whose scheme is neither [http:] nor [https:] is rejected
    with the protocol error and the request state is untouched, so no
    DNS query or network call has happened.  The checks are fail-fast
    in the order parse, protocol, port, hostname: an unparsable input
    yields the format error; a parsed URL with a wrong scheme yields
    the protocol error whatever its port and host; with an allowed
    scheme and a wrong port it yields the port error whatever its host,
    still with the state untouched; only then is the host validated and
    its failure propagated; and a value is returned only when every
    check has passed, in which case it is the serialized URL. *)
Theorem sanitize_fail_fast_order (raw : string) (st : St W) :
  (forall e, new_URL P raw None = inl e ->
     validateAndSanitizeUrl P raw st = (Threw (JsError "Invalid URL format"), st))
  /\ (forall u, new_URL P raw None = inr u ->
        protocol u <> "http:" -> protocol u <> "https:" ->
        validateAndSanitizeUrl P raw st = (Threw (JsError protocol_message), st))
  /\ (forall u, new_URL P raw None = inr u ->
        protocol u = "http:" \/ protocol u = "https:" ->
        has_number ALLOWED_PORTS (effective_port u) = false ->
        validateAndSanitizeUrl P raw st
        = (Threw (JsError (port_message (effective_port u))), st))
  /\ (forall u e st', new_URL P raw None = inr u ->
        protocol u = "http:" \/ protocol u = "https:" ->
        has_number ALLOWED_PORTS (effective_port u) = true ->
        validateHostname P (hostname u) st = (Threw e, st') ->
        validateAndSanitizeUrl P raw st = (Threw e, st'))
  /\ (forall v st', validateAndSanitizeUrl P raw st = (Returned v, st') ->
        exists u, new_URL P raw None = inr u
                  /\ (protocol u = "http:" \/ protocol u = "https:")
                  /\ has_number ALLOWED_PORTS (effective_port u) = true
                  /\ validateHostname P (hostname u) st = (Returned tt, st')
                  /\ v = href u).
Proof.
  repeat split.
  - intros e H. exact (sanitize_unparsable _ _ _ H).
  - intros u H Hh Hs. rewrite (sanitize_parsed _ _ _ H).
    destruct (protocol_allowed u) eqn:Hp; [| reflexivity].
    apply protocol_allowed_iff in Hp. tauto.
  - intros u H Hp Hport. rewrite (sanitize_parsed _ _ _ H).
    apply protocol_allowed_iff in Hp. rewrite Hp, Hport. reflexivity.
  - intros u e st' H Hp Hport Hhost. rewrite (sanitize_parsed _ _ _ H).
    apply protocol_allowed_iff in Hp. rewrite Hp, Hport. simpl.
    unfold bind. rewrite Hhost. reflexivity.
  - intros v st' Hrun.
    destruct (new_URL P raw None) as [e | u] eqn:Hparse.
    { rewrite (sanitize_unparsable _ _ _ Hparse) in Hrun. discriminate. }
    rewrite (sanitize_parsed _ _ _ Hparse) in Hrun.
    destruct (protocol_allowed u) eqn:Hp; [| discriminate].
    destruct (has_number ALLOWED_PORTS (effective_port u)) eqn:Hport; [| discriminate].
    simpl in Hrun. unfold bind in Hrun.
    destruct (validateHostname P (hostname u) st) as [[[] | e |] st1] eqn:Hhost;
      try discriminate.
    unfold ret in Hrun. inversion Hrun; subst.
    exists u. apply protocol_allowed_iff in Hp. auto.
Qed.

(** C7.  Let [p] be the explicit port of a parsed URL, or the default
    port of its scheme (443 for https, 80 for http) when none is given.
    If [p] is outside {80, 443, 8080, 8443} sanitization fails with the
    state untouched, and for an http or https URL (any other scheme
    has been turned away by the protocol check) the failure is the
    port error.  If [p] is in the set the port check is passed: the
    outcome is that of hostname validation. *)
Theorem sanitize_port_check (raw : string) (u : URL) (p : Z) (st : St W) :
  new_URL P raw None = inr u ->
  explicit_or_default_port u p ->
  (~ In p ALLOWED_PORTS ->
     (exists m, validateAndSanitizeUrl P raw st = (Threw (JsError m), st))
     /\ (protocol u = "http:" \/ protocol u = "https:" ->
         validateAndSanitizeUrl P raw st
         = (Threw (JsError ("Port " ++ showZ p ++ " is not allowed")), st)))
  /\ (In p ALLOWED_PORTS ->
      protocol u = "http:" \/ protocol u = "https:" ->
      validateAndSanitizeUrl P raw st
      = (validateHostname P (hostname u) ;; ret (href u)) st).
Proof.
  intros Hparse Hport.
  apply explicit_or_default_effective in Hport.
  rewrite (sanitize_parsed _ _ _ Hparse), Hport. split.
  - intros Hout.
    assert (Hh : has_number ALLOWED_PORTS (Some p) = false).
    { destruct (has_number ALLOWED_PORTS (Some p)) eqn:Hh; [| reflexivity].
      apply has_number_In in Hh. contradiction. }
    rewrite Hh. split.
    + destruct (negb (protocol_allowed u)); eexists; reflexivity.
    + intros Hp. apply protocol_allowed_iff in Hp. rewrite Hp. reflexivity.
  - intros Hin Hp. apply protocol_allowed_iff in Hp. apply has_number_In in Hin.
    rewrite Hp, Hin. reflexivity.
Qed.

(** A URL given without a port always passes the port check. *)
Lemma default_port_allowed (u : URL) :
  port u = "" -> has_number ALLOWED_PORTS (effective_port u) = true.
Proof.
  intros H. unfold effective_port. rewrite H.
  destruct (String.eqb (protocol u) "https:"); reflexivity.
Qed.

(** C5 (as amended).  A URL whose host is one of the metadata literals
    never passes sanitization, and fails before any DNS query or HTTP
    request: the state is returned untouched, by the sanitizer and by
    [analyzeWebsite].  With an allowed scheme and port the error is the
    one of the range check, every metadata literal being matched by a
    range pattern. *)
Theorem metadata_literal_rejected (raw : string) (u : URL) (st : St W) :
  new_URL P raw None = inr u ->
  In (hostname u) METADATA_IPS ->
  (exists m,
     validateAndSanitizeUrl P raw st = (Threw (JsError m), st)
     /\ forall fuel, analyzeWebsite P fuel raw st = (Threw (JsError m), st))
  /\ (protocol u = "http:" \/ protocol u = "https:" ->
      has_number ALLOWED_PORTS (effective_port u) = true ->
      validateAndSanitizeUrl P raw st
      = (Threw (JsError (blocked_message (hostname u))), st)).
Proof.
  intros Hparse Hmeta.
  destruct (metadata_literals_are_blocked _ Hmeta) as [Hlit Hblocked].
  assert (Hrun : validateAndSanitizeUrl P raw st
                 = (Threw (JsError
                      (if negb (protocol_allowed u) then protocol_message
                       else if negb (has_number ALLOWED_PORTS (effective_port u))
                            then port_message (effective_port u)
                            else blocked_message (hostname u))), st)).
  { rewrite (sanitize_parsed _ _ _ Hparse).
    destruct (negb (protocol_allowed u)); [reflexivity |].
    destruct (negb (has_number ALLOWED_PORTS (effective_port u))); [reflexivity |].
    unfold bind. rewrite (validateHostname_literal P _ st Hlit), Hblocked. reflexivity. }
  split.
  - eexists. split; [exact Hrun |].
    intros fuel. unfold analyzeWebsite, bind at 1. rewrite Hrun. reflexivity.
  - intros Hp Hport. apply protocol_allowed_iff in Hp.
    rewrite Hrun, Hp, Hport. reflexivity.
Qed.

End SanitizerProperties.

(* ================================================================== *)
(** ** Properties of the matcher and of the literal shapes             *)
(* ================================================================== *)

Section MatcherLemmas.

Variable k : bool -> string -> bool.

Lemma rmatch_Chr (c : ascii) (bol : bool) (rest : string) :
  k false rest = true -> rmatch (Chr c) bol (String c rest) k = true.
Proof. intros H. simpl. now rewrite Ascii.eqb_refl, H. Qed.

Lemma rmatch_Digit (c : ascii) (bol : bool) (rest : string) :
  is_digit c = true -> k false rest = true ->
  rmatch Digit bol (String c rest) k = true.
Proof. intros Hc H. simpl. now rewrite Hc, H. Qed.

Lemma rmatch_Rep_step (r : regex) (lo hi : nat) (bol : bool) (s : string) :
  rmatch r bol s (fun b' s' => rmatch (Rep r (pred lo) hi) b' s' k) = true ->
  rmatch (Rep r lo (S hi)) bol s k = true.
Proof.
  intros H. change (rmatch (Rep r lo (S hi)) bol s k)
    with (rmatch r bol s (fun b' s' => rmatch (Rep r (pred lo) hi) b' s' k)
          || ((lo =? 0)%nat && k bol s)).
  now rewrite H.
Qed.

Lemma rmatch_Rep_stop (r : regex) (hi : nat) (bol : bool) (s : string) :
  k bol s = true -> rmatch (Rep r 0 hi) bol s k = true.
Proof.
  intros H. destruct hi.
  - simpl. exact H.
  - change (rmatch (Rep r 0 (S hi)) bol s k)
      with (rmatch r bol s (fun b' s' => rmatch (Rep r (pred 0) hi) b' s' k)
            || ((0 =? 0)%nat && k bol s)).
    rewrite H. apply orb_true_r.
Qed.

End MatcherLemmas.

(** A pattern that starts with [^] can only match at offset 0. *)
Lemma search_anchored_later (r : regex) (s : string) :
  search (Cat Bol r) false s = false.
Proof. induction s as [| c s IH]; simpl; [reflexivity | exact IH]. Qed.

Lemma test_anchored (r : regex) (s : string) :
  test (Cat Bol r) s = rmatch r true s (fun _ _ => true).
Proof.
  unfold test. destruct s as [| c s].
  - simpl. apply orb_false_r.
  - change (search (Cat Bol r) true (String c s))
      with (rmatch (Cat Bol r) true (String c s) (fun _ _ => true)
            || search (Cat Bol r) false s).
    rewrite search_anchored_later, orb_false_r. reflexivity.
Qed.

Lemma rmatch_octet (k : bool -> string -> bool) (o rest : string) (bol : bool) :
  octet_shape o -> k false rest = true ->
  rmatch (Rep Digit 1 3) bol (o ++ rest) k = true.
Proof.
  intros [Hlen Hdig] Hk. unfold all_digits in Hdig.
  destruct o as [| c1 [| c2 [| c3 [| c4 o]]]]; simpl in Hlen; try lia;
    simpl in Hdig; rewrite ?andb_true_iff in Hdig.
  - destruct Hdig as [H1 _].
    apply rmatch_Rep_step, rmatch_Digit; [exact H1 |].
    apply rmatch_Rep_stop. exact Hk.
  - destruct Hdig as [H1 [H2 _]].
    apply rmatch_Rep_step, rmatch_Digit; [exact H1 |].
    apply rmatch_Rep_step, rmatch_Digit; [exact H2 |].
    apply rmatch_Rep_stop. exact Hk.
  - destruct Hdig as [H1 [H2 [H3 _]]].
    apply rmatch_Rep_step, rmatch_Digit; [exact H1 |].
    apply rmatch_Rep_step, rmatch_Digit; [exact H2 |].
    apply rmatch_Rep_step, rmatch_Digit; [exact H3 |].
    apply rmatch_Rep_stop. exact Hk.
Qed.

(** The group [(?:\d{1,3}\.)] *)
Lemma rmatch_octet_dot (k : bool -> string -> bool) (o rest : string) (bol : bool) :
  octet_shape o -> k false rest = true ->
  rmatch (cats [Rep Digit 1 3; Chr "."]) bol (o ++ "." ++ rest) k = true.
Proof.
  intros Ho Hk.
  change (rmatch (Rep Digit 1 3) bol (o ++ String "." rest)
            (fun b' s' => rmatch (Chr ".") b' s' (fun b'' s'' => k b'' s'')) = true).
  apply rmatch_octet; [exact Ho |].
  apply rmatch_Chr. exact Hk.
Qed.

Lemma append_empty_r (s : string) : s ++ "" = s.
Proof. induction s as [| c s IH]; simpl; [reflexivity | now rewrite IH]. Qed.

(** Any four groups of one to three digits joined by dots have the
    shape that [isIPAddress] accepts, whatever the value of the
    groups. *)
Lemma isIPAddress_dotted (o1 o2 o3 o4 : string) :
  octet_shape o1 -> octet_shape o2 -> octet_shape o3 -> octet_shape o4 ->
  isIPAddress (dotted o1 o2 o3 o4) = true.
Proof.
  intros H1 H2 H3 H4. unfold isIPAddress.
  apply orb_true_iff. left.
  unfold re_ipv4_shape, cats at 1. cbn [fold_right].
  rewrite test_anchored. unfold dotted.
  change (rmatch (Rep (cats [Rep Digit 1 3; Chr "."]) 3 3) true
            (o1 ++ "." ++ o2 ++ "." ++ o3 ++ "." ++ o4)
            (fun b' s' => rmatch (Rep Digit 1 3) b' s'
               (fun b'' s'' => rmatch Eol b'' s''
                  (fun b3 s3 => rmatch Eps b3 s3 (fun _ _ => true)))) = true).
  apply rmatch_Rep_step, rmatch_octet_dot; [exact H1 |].
  apply rmatch_Rep_step, rmatch_octet_dot; [exact H2 |].
  apply rmatch_Rep_step, rmatch_octet_dot; [exact H3 |].
  apply rmatch_Rep_stop.
  rewrite <- (append_empty_r o4).
  apply rmatch_octet; [exact H4 | reflexivity].
Qed.

Section LiteralAndNameProperties.

Context {W : Type}.
Variable P : Platform W.

(** C10.  A host name made of four groups of one to three digits joined
    by dots is treated as an IP literal whatever the value of the
    groups: it is classified without any DNS query (the state comes
    back untouched), and it is accepted whenever no range pattern
    matches it and it is not a metadata address. *)
Theorem dotted_quad_is_literal (o1 o2 o3 o4 : string) (st : St W) :
  octet_shape o1 -> octet_shape o2 -> octet_shape o3 -> octet_shape o4 ->
  let h := dotted o1 o2 o3 o4 in
  isIPAddress h = true
  /\ snd (validateHostname P h st) = st
  /\ (isBlockedIP h = false -> has METADATA_IPS h = false ->
      validateHostname P h st = (Returned tt, st)).
Proof.
  intros H1 H2 H3 H4 h.
  assert (Hlit : isIPAddress h = true) by now apply isIPAddress_dotted.
  rewrite (validateHostname_literal P h st Hlit).
  repeat split; [assumption |].
  intros Hb Hm. rewrite Hb, Hm. reflexivity.
Qed.

(** A blocked IPv4 answer only clears [ipv4Success]: when the IPv6
    answer is clean, the host name is accepted whatever the IPv4
    answer contains. *)
Lemma blocked_ipv4_answer_is_ignored (h : string) (w : W) (tr : list Event)
  (l6 : list string) :
  isIPAddress h = false ->
  fst (dnsResolve6 P h (snd (dnsResolve4 P h w))) = inr l6 ->
  clean6 l6 = true ->
  outcome (validateHostname P h (w, tr)) = Returned tt.
Proof.
  intros Hlit H6 Hc. rewrite (validateHostname_name P h w tr Hlit).
  unfold outcome. simpl. rewrite H6. simpl. rewrite Hc.
  rewrite andb_false_r. reflexivity.
Qed.

(** The blocked-address error never leaves [validateHostname] for a
    host name that is not an IP literal. *)
Lemma name_never_reports_blocked (h : string) (st : St W) :
  isIPAddress h = false ->
  outcome (validateHostname P h st) = Returned tt
  \/ outcome (validateHostname P h st) = Threw (JsError (unresolved_message h)).
Proof.
  intros Hlit. destruct st as [w tr].
  rewrite (validateHostname_name P h w tr Hlit). unfold outcome. simpl.
  destruct (negb _ && negb _); [now right | now left].
Qed.

(** C8 (as amended).  For a host name that is not an IP literal, both
    families are queried, IPv4 then IPv6, each exactly once and
    whatever the other answered.  A family fails only when its resolver
    rejects; an empty answer is a success.  Provided no returned
    address is blocked (or, for IPv4, a metadata address), validation
    fails with the resolution error exactly when both resolvers reject,
    and succeeds otherwise. *)
Theorem resolution_gate (h : string) (w : W) (tr : list Event) :
  isIPAddress h = false ->
  let r4 := dnsResolve4 P h w in
  let r6 := dnsResolve6 P h (snd r4) in
  (forall l, fst r4 = inr l -> clean4 l = true) ->
  (forall l, fst r6 = inr l -> clean6 l = true) ->
  let result := validateHostname P h (w, tr) in
  trace result = (tr ++ [EvResolve4 h; EvResolve6 h])%list
  /\ world result = snd r6
  /\ (outcome result = Threw (JsError (unresolved_message h))
      <-> rejected (fst r4) /\ rejected (fst r6))
  /\ (~ (rejected (fst r4) /\ rejected (fst r6)) -> outcome result = Returned tt).
Proof.
  intros Hlit r4 r6 H4 H6 result. unfold result.
  rewrite (validateHostname_name P h w tr Hlit). fold r4. fold r6.
  unfold trace, world, outcome. simpl.
  split; [reflexivity |]. split; [reflexivity |].
  destruct (fst r4) as [e4 | l4]; destruct (fst r6) as [e6 | l6]; simpl;
    rewrite ?(H4 _ eq_refl), ?(H6 _ eq_refl); simpl;
    intuition (try discriminate; auto).
Qed.

End LiteralAndNameProperties.

(** The host [999.1.1.1] is no address at all, yet it is taken for a
    literal and accepted without a DNS query. *)
Lemma dotted_quad_is_literal_999 :
  isIPAddress "999.1.1.1" = true
  /\ validateHostname Demo.names "999.1.1.1" Demo.st0 = (Returned tt, Demo.st0).
Proof.
  assert (H999 : octet_shape "999") by (split; [simpl; lia | reflexivity]).
  assert (H1 : octet_shape "1") by (split; [simpl; lia | reflexivity]).
  destruct (dotted_quad_is_literal Demo.names "999" "1" "1" "1" Demo.st0
              H999 H1 H1 H1) as [Hlit [_ Hok]].
  split; [exact Hlit |].
  apply Hok; reflexivity.
Defined.

(** C1 (the code at the failing inputs).  [mixed.example] resolves to
    the loopback address over IPv4 and to a public address over IPv6:
    validation succeeds.  [inside.example] resolves to a private
    address only: validation fails, but with the resolution error and
    not with the blocked-address error. *)
Lemma blocked_answer_swallowed :
  dnsResolve4 Demo.names "mixed.example" tt = (inr ["127.0.0.1"], tt)
  /\ isBlockedIP "127.0.0.1" = true
  /\ validateHostname Demo.names "mixed.example" Demo.st0
     = (Returned tt, (tt, [EvResolve4 "mixed.example"; EvResolve6 "mixed.example"]))
  /\ dnsResolve4 Demo.names "inside.example" tt = (inr ["10.0.0.5"], tt)
  /\ isBlockedIP "10.0.0.5" = true
  /\ rejected (fst (dnsResolve6 Demo.names "inside.example" tt))
  /\ validateHostname Demo.names "inside.example" Demo.st0
     = (Threw (JsError "Unable to resolve hostname: inside.example"),
        (tt, [EvResolve4 "inside.example"; EvResolve6 "inside.example"])).
Proof. repeat split; vm_compute; reflexivity. Qed.

(** C8 (counterexample).  Both resolvers answer [empty.example] with
    zero addresses, which the specification counts as failure of both families,
    yet validation succeeds instead of failing with the resolution
    error. *)
Lemma empty_answers_are_successes :
  let h := "empty.example" in
  let r4 := dnsResolve4 Demo.names h tt in
  let r6 := dnsResolve6 Demo.names h (snd r4) in
  isIPAddress h = false
  /\ fst r4 = inr [] /\ fst r6 = inr []
  /\ outcome (validateHostname Demo.names h Demo.st0) = Returned tt
  /\ ~ (outcome (validateHostname Demo.names h Demo.st0)
          = Threw (JsError (unresolved_message h))
        <-> family_failed (fst r4) /\ family_failed (fst r6)).
Proof.
  cbv zeta. repeat split; try (vm_compute; reflexivity).
  intros [_ H]. assert (Hf : outcome (validateHostname Demo.names "empty.example" Demo.st0)
                             = Threw (JsError (unresolved_message "empty.example"))).
  { apply H. split; exact I. }
  vm_compute in Hf. discriminate Hf.
Qed.

Lemma resolution_gate_v4only :
  outcome (validateHostname Demo.names "v4only.example" Demo.st0) = Returned tt
  /\ trace (validateHostname Demo.names "v4only.example" Demo.st0)
     = [EvResolve4 "v4only.example"; EvResolve6 "v4only.example"].
Proof.
  assert (Hlit : isIPAddress "v4only.example" = false) by reflexivity.
  assert (H4 : forall l, fst (dnsResolve4 Demo.names "v4only.example" tt) = inr l ->
                         clean4 l = true).
  { intros l H. vm_compute in H. inversion H. reflexivity. }
  assert (H6 : forall l,
             fst (dnsResolve6 Demo.names "v4only.example"
                    (snd (dnsResolve4 Demo.names "v4only.example" tt))) = inr l ->
             clean6 l = true).
  { intros l H. vm_compute in H. discriminate H. }
  destruct (resolution_gate Demo.names "v4only.example" tt [] Hlit H4 H6)
    as [Htr [_ [_ Hok]]].
  split; [| exact Htr].
  apply Hok. intros [H _]. exact H.
Defined.

Lemma sanitize_fail_fast_order_ftp :
  validateAndSanitizeUrl Demo.chain "ftp://files.example/" Demo.st0
  = (Threw (JsError "Only HTTP and HTTPS protocols are allowed"), Demo.st0).
Proof.
  destruct (sanitize_fail_fast_order Demo.chain "ftp://files.example/" Demo.st0)
    as [_ [Hprotocol _]].
  apply (Hprotocol (mkURL "ftp:" "" "files.example" "ftp://files.example/")).
  - reflexivity.
  - simpl. discriminate.
  - simpl. discriminate.
Defined.

Lemma sanitize_port_check_8081 :
  validateAndSanitizeUrl Demo.chain "http://a.example:8081/" Demo.st0
  = (Threw (JsError "Port 8081 is not allowed"), Demo.st0).
Proof.
  pose (u := mkURL "http:" "8081" "a.example" "http://a.example:8081/").
  assert (Hparse : new_URL Demo.chain "http://a.example:8081/" None = inr u)
    by reflexivity.
  assert (Hport : explicit_or_default_port u 8081).
  { left. split; [simpl; discriminate | reflexivity]. }
  assert (Hout : ~ In 8081%Z ALLOWED_PORTS) by (unfold ALLOWED_PORTS; simpl; lia).
  destruct (sanitize_port_check Demo.chain "http://a.example:8081/" u 8081 Demo.st0
              Hparse Hport) as [Hreject _].
  apply (proj2 (Hreject Hout)). left. reflexivity.
Defined.

(** C5 (counterexample).  The address 100.100.100.200 does not lie
    outside every range: the 100.64.0.0/10 pattern matches it. *)
Lemma alibaba_metadata_in_cgnat_range :
  ~ (forall range, In range BLOCKED_IP_RANGES -> test range "100.100.100.200" = false).
Proof.
  intros H.
  assert (Hb : isBlockedIP "100.100.100.200" = false).
  { unfold isBlockedIP. destruct (existsb _ _) eqn:He; [| reflexivity].
    apply existsb_exists in He. destruct He as [r [Hin Ht]].
    rewrite (H r Hin) in Ht. discriminate Ht. }
  vm_compute in Hb. discriminate Hb.
Qed.

Lemma metadata_literal_rejected_aws :
  analyzeWebsite Demo.chain 3 "http://169.254.169.254/latest/meta-data/" Demo.st0
  = (Threw (JsError "Access to IP 169.254.169.254 is blocked for security reasons"),
     Demo.st0).
Proof.
  pose (u := mkURL "http:" "" "169.254.169.254"
               "http://169.254.169.254/latest/meta-data/").
  assert (Hparse : new_URL Demo.chain "http://169.254.169.254/latest/meta-data/" None
                   = inr u) by reflexivity.
  assert (Hmeta : In (hostname u) METADATA_IPS) by (simpl; auto).
  destruct (metadata_literal_rejected Demo.chain _ u Demo.st0 Hparse Hmeta)
    as [[m [Hrun Hall]] Hblocked].
  assert (Hm : m = "Access to IP 169.254.169.254 is blocked for security reasons").
  { rewrite Hblocked in Hrun; [| left; reflexivity | reflexivity].
    inversion Hrun. reflexivity. }
  rewrite <- Hm. apply Hall.
Defined.

(* ================================================================== *)
(** ** Properties of the fetcher                                       *)
(* ================================================================== *)

Section FetchProperties.

Context {W : Type}.
Variable P : Platform W.


(** The [catch] clause always rethrows, and what it throws does not
    depend on where it is used. *)
Lemma fetch_handler_throws (e : Exn) :
  exists e', forall A (st : St W), @fetch_handler W A e st = (Threw e', st).
Proof.
  unfold fetch_handler.
  destruct (isAxiosError e && code_is e "ENOTFOUND"); [eexists; reflexivity |].
  destruct (isAxiosError e && code_is e "ECONNREFUSED"); [eexists; reflexivity |].
  destruct (isAxiosError e && status_is e 403); [eexists; reflexivity |].
  destruct (isAxiosError e && status_is e 404); [eexists; reflexivity |].
  destruct (isAxiosError e && code_is e "ETIMEDOUT"); eexists; reflexivity.
Qed.

Lemma axios_get_redirect (url : string) (resp : Response) (w w1 : W) (tr : list Event) :
  transport_get P url w = (inr resp, w1) ->
  is_redirect_status (status resp) = true ->
  axios_get P url (fun status => (status <? 400)%Z || is_redirect_status status) (w, tr)
  = (Returned resp, (w1, (tr ++ [EvGet url])%list)).
Proof.
  intros Hget Hred. unfold axios_get, bind, await. rewrite Hget.
  unfold settle. rewrite Hred, orb_true_r. reflexivity.
Qed.

(** One activation of [fetchHTML] on a redirect response: the GET, then
    the sanitizer on the resolved target, then either the wrapped
    failure or the recursive call. *)
Lemma fetchHTML_redirect_step (fuel : nat) (url loc : string) (resp : Response)
  (w w1 : W) (tr : list Event) (target : URL) :
  transport_get P url w = (inr resp, w1) ->
  is_redirect_status (status resp) = true ->
  header (headers resp) "location" = Some loc -> loc <> "" ->
  new_URL P loc (Some url) = inr target ->
  fetchHTML P (S fuel) url (w, tr)
  = match validateAndSanitizeUrl P (href target) (w1, (tr ++ [EvGet url])%list) with
    | (Returned validated, st') => fetchHTML P fuel validated st'
    | (Threw e, st') => fetch_handler e st'
    | (OutOfFuel, st') => (OutOfFuel, st')
    end.
Proof.
  intros Hget Hred Hloc Hne Hnew.
  cbn [fetchHTML]. unfold bind at 1, try_catch, bind at 1.
  rewrite (axios_get_redirect _ _ _ _ _ Hget Hred).
  rewrite Hred, Hloc.
  assert (Ht : truthy (Some loc) = true) by (destruct loc; [contradiction | reflexivity]).
  rewrite Ht. cbn [andb]. unfold bind at 1. rewrite Hnew. cbn [of_sum]. unfold ret at 1.
  unfold bind at 1.
  destruct (validateAndSanitizeUrl P (href target) (w1, (tr ++ [EvGet url])%list))
    as [[validated | e |] st']; try reflexivity.
  destruct (fetch_handler_throws e) as [e' He'].
  rewrite (He' FetchStep), (He' string). reflexivity.
Qed.

(** C3.  When the response to the GET of [url] is a redirect with a
    [Location], the location is resolved against [url] and the whole
    sanitizer is run on the resulting absolute URL right after that
    GET; the sanitizer issues DNS queries only.  If it rejects the
    target, [fetchHTML] fails with the sanitizer's message (wrapped by
    its [catch] clause) in the state the sanitizer left, so the target
    is never requested; if it accepts, the next request is the one of
    the recursive call on the validated target.  In particular a
    redirect to [http://127.0.0.1/] fails with the blocked-address
    message after the single GET of [url]. *)
Theorem redirect_target_is_sanitized_first (fuel : nat) (url loc : string)
  (resp : Response) (w w1 : W) (tr : list Event) (target : URL) :
  transport_get P url w = (inr resp, w1) ->
  is_redirect_status (status resp) = true ->
  header (headers resp) "location" = Some loc -> loc <> "" ->
  new_URL P loc (Some url) = inr target ->
  let v := validateAndSanitizeUrl P (href target) (w1, (tr ++ [EvGet url])%list) in
  (exists dns, trace v = (tr ++ [EvGet url] ++ dns)%list /\ forallb is_dns dns = true)
  /\ ((exists validated, outcome v = Returned validated)
      \/ (exists m, outcome v = Threw (JsError m)))
  /\ (forall m, outcome v = Threw (JsError m) ->
        fetchHTML P (S fuel) url (w, tr)
        = (Threw (JsError ("Failed to fetch website: " ++ m)), snd v))
  /\ (forall validated, outcome v = Returned validated ->
        fetchHTML P (S fuel) url (w, tr) = fetchHTML P fuel validated (snd v))
  /\ (forall u, new_URL P (href target) None = inr u ->
        protocol u = "http:" -> port u = "" -> hostname u = "127.0.0.1" ->
        fetchHTML P (S fuel) url (w, tr)
        = (Threw (JsError ("Failed to fetch website: " ++ blocked_message "127.0.0.1")),
           (w1, (tr ++ [EvGet url])%list))).
Proof.
  intros Hget Hred Hloc Hne Hnew v.
  pose proof (fetchHTML_redirect_step fuel url loc resp w w1 tr target
                Hget Hred Hloc Hne Hnew) as Hstep.
  fold v in Hstep.
  destruct (sanitize_effects P (href target) (w1, (tr ++ [EvGet url])%list))
    as [dns [Htr [Hdns Hout]]].
  fold v in Htr, Hout. simpl in Htr.
  split.
  { exists dns. rewrite Htr, <- app_assoc. auto. }
  split; [exact Hout |].
  split; [| split].
  - intros m Hm. rewrite Hstep. destruct v as [[x | e |] st']; try discriminate Hm.
    unfold outcome in Hm. simpl in Hm. inversion Hm. subst e. reflexivity.
  - intros validated Hv. rewrite Hstep. destruct v as [[x | e |] st']; try discriminate Hv.
    unfold outcome in Hv. simpl in Hv. inversion Hv. subst x. reflexivity.
  - intros u Hparse Hproto Hport Hhost.
    assert (Hv : v = (Threw (JsError (blocked_message "127.0.0.1")),
                      (w1, (tr ++ [EvGet url])%list))).
    { unfold v. rewrite (sanitize_parsed P _ _ _ Hparse).
      assert (Hp : protocol_allowed u = true)
        by (apply protocol_allowed_iff; now left).
      rewrite Hp, (default_port_allowed u Hport). cbn [negb].
      unfold bind. rewrite Hhost.
      rewrite (validateHostname_literal P "127.0.0.1" _ eq_refl). reflexivity. }
    rewrite Hstep, Hv. reflexivity.
Qed.

End FetchProperties.

(** A page of [a.example] that redirects to [http://127.0.0.1/]: the
    fetch fails after the one GET, the loopback address is never
    requested. *)
Lemma redirect_to_loopback_refused :
  fetchHTML Demo.to_loopback 1 "http://a.example/" Demo.st0
  = (Threw (JsError
       "Failed to fetch website: Access to IP 127.0.0.1 is blocked for security reasons"),
     (tt, [EvGet "http://a.example/"])).
Proof.
  pose (resp := Demo.redirect_to "http://127.0.0.1/").
  pose (u := mkURL "http:" "" "127.0.0.1" "http://127.0.0.1/").
  assert (Hget : transport_get Demo.to_loopback "http://a.example/" tt = (inr resp, tt))
    by reflexivity.
  assert (Hred : is_redirect_status (status resp) = true) by reflexivity.
  assert (Hloc : header (headers resp) "location" = Some "http://127.0.0.1/")
    by reflexivity.
  assert (Hne : "http://127.0.0.1/" <> "") by discriminate.
  assert (Hnew : new_URL Demo.to_loopback "http://127.0.0.1/" (Some "http://a.example/")
                 = inr u) by reflexivity.
  destruct (redirect_target_is_sanitized_first Demo.to_loopback 0 "http://a.example/"
              "http://127.0.0.1/" resp tt tt [] u Hget Hred Hloc Hne Hnew)
    as [_ [_ [_ [_ Hloop]]]].
  apply (Hloop u); reflexivity.
Defined.

(** C2 (the code at the failing input).  [a.example] redirects to
    [b.example], whose response is again a redirect, to [c.example]:
    [fetchHTML] follows the second redirect as well and returns the
    document of [c.example]; three GET requests are issued. *)
Lemma second_redirect_is_followed :
  is_redirect_status (status (Demo.redirect_to "http://b.example/")) = true
  /\ transport_get Demo.chain "http://a.example/" tt
     = (inr (Demo.redirect_to "http://b.example/"), tt)
  /\ transport_get Demo.chain "http://b.example/" tt
     = (inr (Demo.redirect_to "http://c.example/"), tt)
  /\ fetchHTML Demo.chain 3 "http://a.example/" Demo.st0
     = (Returned "<html><head><title>C</title></head></html>",
        (tt, [EvGet "http://a.example/";
              EvResolve4 "b.example"; EvResolve6 "b.example";
              EvGet "http://b.example/";
              EvResolve4 "c.example"; EvResolve6 "c.example";
              EvGet "http://c.example/"])).
Proof. repeat split; vm_compute; reflexivity. Qed.

(* ================================================================== *)
(** ** Coverage of the range table                                     *)
(* ================================================================== *)

Lemma isBlockedIP_at_start (ip : string) : isBlockedIP ip = blocked_at_start ip.
Proof.
  unfold isBlockedIP, blocked_at_start, blocked_bodies, BLOCKED_IP_RANGES.
  cbv [cats fold_right map existsb].
  rewrite !test_anchored. reflexivity.
Qed.

Lemma octets_complete (a : Z) : (0 <= a < 256)%Z -> In a octets.
Proof.
  intros H. unfold octets. apply in_map_iff. exists (Z.to_nat a). split.
  - lia.
  - apply in_seq. lia.
Qed.

Lemma prefix_ranges_table (rest : string) :
  forallb (fun a =>
    forallb (fun b =>
      implb (in_prefix_range a b)
            (blocked_at_start (showZ a ++ "." ++ showZ b ++ "." ++ rest)))
      octets) octets = true.
Proof. vm_compute. reflexivity. Qed.

(** Every address of the listed IPv4 ranges, written in dotted decimal,
    is blocked. *)
Lemma listed_ipv4_ranges_blocked (a b c d : Z) :
  (0 <= a < 256)%Z -> (0 <= b < 256)%Z -> (0 <= c < 256)%Z -> (0 <= d < 256)%Z ->
  in_listed_ipv4_range a b c d = true ->
  isBlockedIP (ipv4_text a b c d) = true.
Proof.
  intros Ha Hb Hc Hd Hin. rewrite isBlockedIP_at_start.
  unfold ipv4_text, dotted.
  unfold in_listed_ipv4_range in Hin.
  apply orb_true_iff in Hin. destruct Hin as [Hin | Hin];
    [apply orb_true_iff in Hin; destruct Hin as [Hin | Hin] |].
  - pose proof (prefix_ranges_table (showZ c ++ "." ++ showZ d)) as Htab.
    rewrite forallb_forall in Htab. specialize (Htab a (octets_complete a Ha)).
    rewrite forallb_forall in Htab. specialize (Htab b (octets_complete b Hb)).
    rewrite Hin in Htab. exact Htab.
  - rewrite !andb_true_iff, !Z.eqb_eq in Hin. destruct Hin as [[-> ->] ->].
    vm_compute. reflexivity.
  - rewrite !andb_true_iff, !Z.eqb_eq in Hin. destruct Hin as [[[-> ->] ->] ->].
    vm_compute. reflexivity.
Qed.

(** The IPv6 forms that the table does match. *)
Lemma listed_ipv6_forms_blocked (rest : string) :
  isBlockedIP "::1" = true
  /\ isBlockedIP ("::ffff:127." ++ rest) = true
  /\ isBlockedIP ("::ffff:10." ++ rest) = true
  /\ isBlockedIP ("::ffff:192.168." ++ rest) = true
  /\ isBlockedIP ("fc00:" ++ rest) = true
  /\ isBlockedIP ("fd00:" ++ rest) = true
  /\ isBlockedIP ("fe80:" ++ rest) = true.
Proof. rewrite !isBlockedIP_at_start. repeat split; vm_compute; reflexivity. Qed.

(** C4 (the code at the failing inputs).  Addresses of fc00::/7 whose
    first group is not exactly [fc00] or [fd00], addresses of fe80::/10
    whose first group is not exactly [fe80], and the IPv4-mapped form
    of a link-local address are not blocked. *)
Lemma ipv6_ranges_not_covered :
  (in_fc00_7 "fd12:3456:789a:1::1" = true /\ isBlockedIP "fd12:3456:789a:1::1" = false)
  /\ (in_fc00_7 "fc01::1" = true /\ isBlockedIP "fc01::1" = false)
  /\ (in_fe80_10 "fe90::1" = true /\ isBlockedIP "fe90::1" = false)
  /\ isBlockedIP "::ffff:169.254.169.254" = false.
Proof. repeat split; vm_compute; reflexivity. Qed.

(* ================================================================== *)
(** ** Properties of the scorer                                        *)
(* ================================================================== *)

Lemma count_type_snoc (t : IssueType.t) (l : list SEOIssue) (i : SEOIssue) :
  count_type t (l ++ [i])%list
  = (count_type t l + if IssueType.eqb (issue_type i) t then 1 else 0)%nat.
Proof.
  unfold count_type. rewrite filter_app, length_app. cbn [filter].
  destruct (IssueType.eqb (issue_type i) t); reflexivity.
Qed.

Section ScoringStages.

Variable metaData : HTMLMetaData.
Variable r : Report.

(** A title of 30 to 60 characters costs nothing and is tagged good. *)
Lemma score_title_optimal (t : string) :
  title metaData = Some t -> (30 <= strlen t <= 60)%Z ->
  score_title metaData r
  = push_tag (mkTag "title" t TagStatus.good None)
      (push_issue (mkIssue IssueType.success "Title tag length is optimal") r).
Proof.
  intros Ht Hlen. unfold score_title. rewrite Ht. cbn [str].
  assert (Htruthy : truthy (Some t) = true).
  { destruct t; [unfold strlen in Hlen; simpl in Hlen; lia | reflexivity]. }
  rewrite Htruthy.
  destruct (Z.ltb_spec (strlen t) 30); [lia |].
  destruct (Z.ltb_spec 60 (strlen t)); [lia |].
  reflexivity.
Qed.

(** A missing description costs 20 and is an error. *)
Lemma score_description_missing :
  description metaData = None ->
  score_description metaData r
  = push_tag (mkTag "description" "" TagStatus.missing
                (Some "Add a compelling meta description (120-160 characters) to improve click-through rates"))
      (push_issue (mkIssue IssueType.error "Missing meta description") (sub_score 20 r)).
Proof. intros Hd. unfold score_description. rewrite Hd. reflexivity. Qed.

Lemma score_open_graph_complete :
  truthy (ogTitle metaData) = true -> truthy (ogDescription metaData) = true ->
  score (score_open_graph metaData r) = score r
  /\ issues (score_open_graph metaData r)
     = (issues r ++ [mkIssue IssueType.success "Open Graph tags configured"])%list
  /\ incl (tags r) (tags (score_open_graph metaData r)).
Proof.
  intros H1 H2. unfold score_open_graph. rewrite H1, H2.
  cbn [andb score issues tags push_tag push_issue].
  repeat split. rewrite <- app_assoc. apply incl_appl, incl_refl.
Qed.

Lemma score_og_image_present :
  truthy (ogImage metaData) = true ->
  score (score_og_image metaData r) = score r
  /\ issues (score_og_image metaData r) = issues r
  /\ incl (tags r) (tags (score_og_image metaData r)).
Proof.
  intros H. unfold score_og_image. rewrite H.
  cbn [score issues tags push_tag]. repeat split. apply incl_appl, incl_refl.
Qed.

(** A missing canonical URL costs 8 and is a warning. *)
Lemma score_canonical_missing :
  canonical metaData = None ->
  score (score_canonical metaData r) = (score r - 8)%Z
  /\ issues (score_canonical metaData r)
     = (issues r ++ [mkIssue IssueType.warning "Missing canonical URL"])%list
  /\ incl (tags r) (tags (score_canonical metaData r)).
Proof.
  intros H. unfold score_canonical. rewrite H.
  cbn [truthy score issues tags push_tag push_issue sub_score].
  repeat split. apply incl_appl, incl_refl.
Qed.

(** The viewport section costs 5 when the viewport is absent, and adds
    no error either way. *)
Lemma score_viewport_effect :
  score (score_viewport metaData r)
  = (score r - if truthy (viewport metaData) then 0 else 5)%Z
  /\ count_type IssueType.error (issues (score_viewport metaData r))
     = count_type IssueType.error (issues r)
  /\ incl (issues r) (issues (score_viewport metaData r))
  /\ incl (tags r) (tags (score_viewport metaData r)).
Proof.
  unfold score_viewport. destruct (truthy (viewport metaData));
    cbn [score issues tags push_tag push_issue sub_score].
  - repeat split; [lia | apply incl_refl | apply incl_appl, incl_refl].
  - rewrite count_type_snoc. cbn [issue_type IssueType.eqb].
    repeat split; [lia | apply incl_appl, incl_refl | apply incl_appl, incl_refl].
Qed.

(** The robots section changes neither the score nor the issues. *)
Lemma score_robots_effect :
  score (score_robots metaData r) = score r
  /\ issues (score_robots metaData r) = issues r
  /\ incl (tags r) (tags (score_robots metaData r)).
Proof.
  unfold score_robots. destruct (truthy (robots metaData));
    cbn [score issues tags push_tag]; repeat split; apply incl_appl, incl_refl.
Qed.

End ScoringStages.

(** C9.  A record with a title of 45 characters, no description, the
    three Open Graph fields present and no canonical URL scores
    100 - 20 - 8, less 5 when the viewport is absent as well; its
    issues hold exactly one error, the missing meta description, and
    the warning for the missing canonical URL; its tags hold the title
    with status good. *)
Theorem score_of_scenario (metaData : HTMLMetaData) (url t : string) :
  title metaData = Some t -> String.length t = 45%nat ->
  description metaData = None ->
  truthy (ogTitle metaData) = true ->
  truthy (ogDescription metaData) = true ->
  truthy (ogImage metaData) = true ->
  canonical metaData = None ->
  let r := calculateSEOScore metaData url in
  score r = (100 - 20 - 8 - (if truthy (viewport metaData) then 0 else 5))%Z
  /\ count_type IssueType.error (issues r) = 1%nat
  /\ In (mkIssue IssueType.error "Missing meta description") (issues r)
  /\ In (mkIssue IssueType.warning "Missing canonical URL") (issues r)
  /\ In (mkTag "title" t TagStatus.good None) (tags r).
Proof.
  intros Ht Hlen Hd Hogt Hogd Hogi Hc r. subst r.
  unfold calculateSEOScore. cbn [score issues tags].
  set (r0 := mkReport 100 [] []).
  assert (H1 : score_title metaData r0
               = push_tag (mkTag "title" t TagStatus.good None)
                   (push_issue (mkIssue IssueType.success "Title tag length is optimal") r0)).
  { apply score_title_optimal; [exact Ht |]. unfold strlen. rewrite Hlen. lia. }
  set (r1 := score_title metaData r0) in *.
  pose proof (score_description_missing metaData r1 Hd) as H2.
  set (r2 := score_description metaData r1) in *.
  destruct (score_open_graph_complete metaData r2 Hogt Hogd) as [S3 [I3 T3]].
  set (r3 := score_open_graph metaData r2) in *.
  destruct (score_og_image_present metaData r3 Hogi) as [S4 [I4 T4]].
  set (r4 := score_og_image metaData r3) in *.
  destruct (score_canonical_missing metaData r4 Hc) as [S5 [I5 T5]].
  set (r5 := score_canonical metaData r4) in *.
  destruct (score_viewport_effect metaData r5) as [S6 [C6 [I6 T6]]].
  set (r6 := score_viewport metaData r5) in *.
  destruct (score_robots_effect metaData r6) as [S7 [I7 T7]].
  set (r7 := score_robots metaData r6) in *.
  assert (Hs2 : score r2 = 80%Z) by (rewrite H2, H1; reflexivity).
  assert (Hi2 : issues r2
                = [mkIssue IssueType.success "Title tag length is optimal";
                   mkIssue IssueType.error "Missing meta description"])
    by (rewrite H2, H1; reflexivity).
  assert (Ht1 : In (mkTag "title" t TagStatus.good None) (tags r2)).
  { rewrite H2, H1. cbn [tags push_tag push_issue sub_score r0 app]. left. reflexivity. }
  assert (Hi5 : issues r5
                = [mkIssue IssueType.success "Title tag length is optimal";
                   mkIssue IssueType.error "Missing meta description";
                   mkIssue IssueType.success "Open Graph tags configured";
                   mkIssue IssueType.warning "Missing canonical URL"])
    by (rewrite I5, I4, I3, Hi2; reflexivity).
  split; [| split; [| split; [| split]]].
  - rewrite S7, S6, S5, S4, S3, Hs2.
    destruct (truthy (viewport metaData)); reflexivity.
  - rewrite I7, C6, Hi5. reflexivity.
  - rewrite I7. apply I6. rewrite Hi5. cbn [In]. auto.
  - rewrite I7. apply I6. rewrite Hi5. cbn [In]. auto.
  - apply T7, T6, T5, T4, T3, Ht1.
Qed.

Lemma score_of_scenario_sample :
  let r := calculateSEOScore Demo.sample_meta "https://example.com" in
  score r = 72%Z
  /\ count_type IssueType.error (issues r) = 1%nat
  /\ In (mkTag "title" Demo.sample_title TagStatus.good None) (tags r).
Proof.
  destruct (score_of_scenario Demo.sample_meta "https://example.com" Demo.sample_title
              eq_refl eq_refl eq_refl eq_refl eq_refl eq_refl eq_refl)
    as [Hscore [Hcount [_ [_ Htag]]]].
  cbv zeta. repeat split; assumption.
Defined.

(* ================================================================== *)
(** ** Further properties of the classifier                            *)
(* ================================================================== *)

Lemma prefix_ranges_exact_table (rest : string) :
  forallb (fun a =>
    forallb (fun b =>
      ((a =? 192) && (b =? 0))%Z
      || Bool.eqb (blocked_at_start (showZ a ++ "." ++ showZ b ++ "." ++ rest))
                  (in_prefix_range a b || (240 <=? a)%Z))
      octets) octets = true.
Proof. vm_compute. reflexivity. Qed.

Lemma reserved_192_0_table (rest : string) :
  forallb (fun c =>
    Bool.eqb (blocked_at_start ("192.0." ++ showZ c ++ "." ++ rest)) (c =? 0)%Z)
    octets = true.
Proof. vm_compute. reflexivity. Qed.

(** The range table on dotted-decimal text, exactly. *)
Lemma isBlockedIP_dotted_decimal (a b c d : Z) :
  (0 <= a < 256)%Z -> (0 <= b < 256)%Z -> (0 <= c < 256)%Z -> (0 <= d < 256)%Z ->
  isBlockedIP (ipv4_text a b c d)
  = (in_listed_ipv4_range a b c d || (240 <=? a)%Z).
Proof.
  intros Ha Hb Hc Hd. rewrite isBlockedIP_at_start.
  unfold ipv4_text, dotted, in_listed_ipv4_range.
  destruct ((a =? 192) && (b =? 0))%Z eqn:Hab.
  - apply andb_true_iff in Hab. destruct Hab as [Ea Eb].
    apply Z.eqb_eq in Ea, Eb. subst a b.
    pose proof (reserved_192_0_table (showZ d)) as Htab.
    rewrite forallb_forall in Htab. specialize (Htab c (octets_complete c Hc)).
    apply Bool.eqb_prop in Htab.
    change (showZ 192 ++ "." ++ showZ 0 ++ "." ++ showZ c ++ "." ++ showZ d)
      with ("192.0." ++ showZ c ++ "." ++ showZ d).
    rewrite Htab. cbn. destruct (c =? 0)%Z; reflexivity.
  - pose proof (prefix_ranges_exact_table (showZ c ++ "." ++ showZ d)) as Htab.
    rewrite forallb_forall in Htab. specialize (Htab a (octets_complete a Ha)).
    rewrite forallb_forall in Htab. specialize (Htab b (octets_complete b Hb)).
    rewrite Hab in Htab. cbn [orb] in Htab. apply Bool.eqb_prop in Htab.
    rewrite Htab. cbn [andb orb].
    destruct (in_prefix_range a b); [reflexivity |]. cbn [orb].
    destruct ((a =? 255) && (b =? 255) && (c =? 255) && (d =? 255))%Z eqn:H255;
      [| reflexivity].
    rewrite !andb_true_iff, !Z.eqb_eq in H255. destruct H255 as [[[-> _] _] _].
    reflexivity.
Qed.

(** X1.  On the dotted-decimal text of an IPv4 address, [isBlockedIP]
    answers true exactly for the addresses of 0/8, 10/8, 100.64/10,
    127/8, 169.254/16, 172.16/12, 192.0.0/24, 192.168/16, 198.18/15,
    224/4 and 255.255.255.255, and for the rest of 240/4, which the
    second multicast pattern covers as well. *)
Theorem isBlockedIP_ipv4_exact (a b c d : Z) :
  (0 <= a < 256)%Z -> (0 <= b < 256)%Z -> (0 <= c < 256)%Z -> (0 <= d < 256)%Z ->
  isBlockedIP (ipv4_text a b c d)
  = (in_listed_ipv4_range a b c d || (240 <=? a)%Z).
Proof. exact (isBlockedIP_dotted_decimal a b c d). Qed.

Lemma isBlockedIP_ipv4_exact_samples :
  isBlockedIP "172.31.255.1" = true /\ isBlockedIP "172.32.0.1" = false
  /\ isBlockedIP "240.0.0.1" = true.
Proof.
  split; [| split].
  - exact (isBlockedIP_ipv4_exact 172 31 255 1
             ltac:(lia) ltac:(lia) ltac:(lia) ltac:(lia)).
  - exact (isBlockedIP_ipv4_exact 172 32 0 1
             ltac:(lia) ltac:(lia) ltac:(lia) ltac:(lia)).
  - exact (isBlockedIP_ipv4_exact 240 0 0 1
             ltac:(lia) ltac:(lia) ltac:(lia) ltac:(lia)).
Defined.

(** X2.  A host name that starts with a bracket, which is how the URL
    parser hands over an IPv6 literal, is never taken for an IP
    literal: it is sent to both resolvers like any other name and is
    never classified by the range table itself. *)
Theorem bracketed_host_is_resolved {W : Type} (P : Platform W)
  (s : string) (w : W) (tr : list Event) :
  isIPAddress ("[" ++ s) = false
  /\ trace (validateHostname P ("[" ++ s) (w, tr))
     = (tr ++ [EvResolve4 ("[" ++ s); EvResolve6 ("[" ++ s)])%list.
Proof.
  assert (Hlit : isIPAddress ("[" ++ s) = false).
  { unfold isIPAddress, re_ipv4_shape, re_ipv6_shape, cats. cbn [fold_right].
    rewrite !test_anchored. reflexivity. }
  split; [exact Hlit |].
  rewrite (validateHostname_name P _ w tr Hlit). reflexivity.
Qed.

(* ================================================================== *)
(** ** Further properties of hostname validation and sanitization      *)
(* ================================================================== *)

Lemma blocked_message_not_metadata (ip : string) :
  blocked_message ip <> metadata_message.
Proof. unfold blocked_message, metadata_message. simpl. discriminate. Qed.

(** X3.  Whatever the host name and the answers of the resolvers,
    [validateHostname] only adds DNS queries to the trace, never an
    HTTP request, and ends either normally or with a plain [Error]. *)
Theorem validateHostname_only_resolves {W : Type} (P : Platform W)
  (h : string) (st : St W) :
  exists dns,
    trace (validateHostname P h st) = (snd st ++ dns)%list
    /\ forallb is_dns dns = true
    /\ (outcome (validateHostname P h st) = Returned tt
        \/ exists m, outcome (validateHostname P h st) = Threw (JsError m)).
Proof. exact (validateHostname_effects P h st). Qed.

(** X4.  For a host name that is not an IP literal, [validateHostname]
    queries IPv4 and then IPv6, each once; it succeeds as soon as one
    family both resolves and passes its address checks, and otherwise
    fails, always with the message that the name cannot be resolved. *)
Theorem validateHostname_of_name {W : Type} (P : Platform W)
  (h : string) (w : W) (tr : list Event) :
  isIPAddress h = false ->
  let r4 := dnsResolve4 P h w in
  let r6 := dnsResolve6 P h (snd r4) in
  validateHostname P h (w, tr)
  = (if success4 (fst r4) || success6 (fst r6)
     then Returned tt
     else Threw (JsError (unresolved_message h)),
     (snd r6, (tr ++ [EvResolve4 h; EvResolve6 h])%list)).
Proof.
  intros Hlit r4 r6. rewrite (validateHostname_name P h w tr Hlit).
  fold r4. fold r6.
  destruct (success4 (fst r4)), (success6 (fst r6)); reflexivity.
Qed.

Lemma validateHostname_of_name_inside :
  validateHostname Demo.names "inside.example" Demo.st0
  = (Threw (JsError "Unable to resolve hostname: inside.example"),
     (tt, [EvResolve4 "inside.example"; EvResolve6 "inside.example"])).
Proof.
  assert (Hlit : isIPAddress "inside.example" = false) by reflexivity.
  unfold Demo.st0.
  rewrite (validateHostname_of_name Demo.names "inside.example" tt [] Hlit).
  reflexivity.
Defined.

(** X5.  The message for metadata services is never what
    [validateHostname] fails with: for a literal the range check comes
    first and matches every metadata address, and for a name the inner
    [catch] keeps the error from leaving. *)
Theorem metadata_message_never_thrown {W : Type} (P : Platform W)
  (h : string) (st : St W) :
  outcome (validateHostname P h st) <> Threw (JsError metadata_message).
Proof.
  destruct (isIPAddress h) eqn:Hlit.
  - rewrite (validateHostname_literal P h st Hlit). unfold outcome. cbn [fst].
    destruct (isBlockedIP h) eqn:Hb.
    + intros H. apply (blocked_message_not_metadata h). congruence.
    + destruct (has METADATA_IPS h) eqn:Hm; [| discriminate].
      apply has_In in Hm. apply metadata_literals_are_blocked in Hm.
      destruct Hm as [_ Hm]. rewrite Hm in Hb. discriminate Hb.
  - destruct (name_never_reports_blocked P h st Hlit) as [H | H]; rewrite H.
    + discriminate.
    + unfold unresolved_message, metadata_message. simpl. discriminate.
Qed.

(** X6.  Whatever the input, [validateAndSanitizeUrl] only adds DNS
    queries to the trace, never an HTTP request, and ends either with a
    value or with a plain [Error]. *)
Theorem sanitizer_only_resolves {W : Type} (P : Platform W)
  (raw : string) (st : St W) :
  exists dns,
    trace (validateAndSanitizeUrl P raw st) = (snd st ++ dns)%list
    /\ forallb is_dns dns = true
    /\ ((exists v, outcome (validateAndSanitizeUrl P raw st) = Returned v)
        \/ exists m, outcome (validateAndSanitizeUrl P raw st) = Threw (JsError m)).
Proof. exact (sanitize_effects P raw st). Qed.

(* ================================================================== *)
(** ** Further properties of the preflight check                       *)
(* ================================================================== *)

Section PreflightProperties.

Context {W : Type}.
Variable P : Platform W.

Lemma truthy_str (v : option string) : truthy v = true -> v = Some (str v) /\ str v <> "".
Proof.
  destruct v as [[| c s] |]; simpl; try discriminate.
  intros _. split; [reflexivity | discriminate].
Qed.

Lemma axios_head_run (url : string) (validateStatus : Z -> bool) (w : W)
  (tr : list Event) :
  axios_head P url validateStatus (w, tr)
  = (match settled validateStatus (fst (transport_head P url w)) with
     | inl e => Threw e
     | inr resp => Returned resp
     end, (snd (transport_head P url w), (tr ++ [EvHead url])%list)).
Proof.
  unfold axios_head, bind, await, settle, settled.
  destruct (transport_head P url w) as [[e | resp] w1]; simpl; [reflexivity |].
  destruct (validateStatus (status resp)); reflexivity.
Qed.

Lemma axios_get_run (url : string) (validateStatus : Z -> bool) (w : W)
  (tr : list Event) :
  axios_get P url validateStatus (w, tr)
  = (match settled validateStatus (fst (transport_get P url w)) with
     | inl e => Threw e
     | inr resp => Returned resp
     end, (snd (transport_get P url w), (tr ++ [EvGet url])%list)).
Proof.
  unfold axios_get, bind, await, settle, settled.
  destruct (transport_get P url w) as [[e | resp] w1]; simpl; [reflexivity |].
  destruct (validateStatus (status resp)); reflexivity.
Qed.


(** X8.  When the HEAD request is answered with a status of 400 or
    more, the preflight lets the analysis go on only for 405 (method
    not allowed); any other status ends it with the axios error that
    carries the status.  One HEAD request has been issued. *)
Theorem preflight_rejected_status (url : string) (resp : Response) (w w1 : W)
  (tr : list Event) :
  transport_head P url w = (inr resp, w1) ->
  (400 <= status resp)%Z ->
  preflightCheck P url (w, tr)
  = (if (status resp =? 405)%Z then Returned tt
     else Threw (AxiosError ("Request failed with status code " ++ showZ (status resp))
                   (Some (if (status resp <? 500)%Z then "ERR_BAD_REQUEST"
                          else "ERR_BAD_RESPONSE"))
                   (Some (status resp))),
     (w1, (tr ++ [EvHead url])%list)).
Proof.
  intros Hhead Hst.
  unfold preflightCheck, try_catch, bind. rewrite axios_head_run, Hhead.
  cbn [fst snd settled].
  destruct (Z.ltb_spec (status resp) 400); [lia |].
  unfold status_is, isAxiosError, response_status_of. cbn [andb].
  destruct (status resp =? 405)%Z; reflexivity.
Qed.

(** The preflight on an answer with a status below 400. *)
Lemma preflightCheck_on_accepted_status (url : string) (resp : Response) (w w1 : W)
  (tr : list Event) :
  transport_head P url w = (inr resp, w1) ->
  (status resp < 400)%Z ->
  let contentType := header (headers resp) "content-type" in
  let contentLength := header (headers resp) "content-length" in
  preflightCheck P url (w, tr)
  = (if negb (preflight_accepts_type contentType)
     then Threw (JsError "URL does not serve HTML content")
     else if negb (preflight_accepts_length contentLength)
     then Threw (JsError ("Content too large (" ++ str contentLength
                          ++ " bytes). Maximum allowed: 10485760 bytes"))
     else Returned tt,
     (w1, (tr ++ [EvHead url])%list)).
Proof.
  intros Hhead Hst contentType contentLength.
  unfold preflightCheck, try_catch, bind. rewrite axios_head_run, Hhead.
  cbn [fst snd settled].
  destruct (Z.ltb_spec (status resp) 400); [| lia].
  fold contentType. fold contentLength.
  unfold preflight_accepts_type, preflight_accepts_length.
  change (match contentType with Some c => c | None => "" end) with (str contentType).
  change (match contentLength with Some c => c | None => "" end) with (str contentLength).
  destruct (truthy contentType); cbn [negb andb orb].
  - destruct (includes (str contentType) "text/html"); cbn [negb ret];
      [| reflexivity].
    destruct (truthy contentLength); cbn [negb andb orb]; [| reflexivity].
    destruct (exceeds (parseInt (str contentLength)) MAX_CONTENT_LENGTH);
      reflexivity.
  - cbn [ret].
    destruct (truthy contentLength); cbn [negb andb orb]; [| reflexivity].
    destruct (exceeds (parseInt (str contentLength)) MAX_CONTENT_LENGTH);
      reflexivity.
Qed.

(** X9.  When the HEAD request is answered with a status below 400,
    the preflight passes exactly when the declared content type is
    absent, empty or contains [text/html], and the declared content
    length is absent, empty, not a number or at most 10 MiB.  The type
    is checked first; each failure is a plain [Error]. *)
Theorem preflight_accepted_status (url : string) (resp : Response) (w w1 : W)
  (tr : list Event) :
  transport_head P url w = (inr resp, w1) ->
  (status resp < 400)%Z ->
  let contentType := header (headers resp) "content-type" in
  let contentLength := header (headers resp) "content-length" in
  preflightCheck P url (w, tr)
  = (if negb (preflight_accepts_type contentType)
     then Threw (JsError "URL does not serve HTML content")
     else if negb (preflight_accepts_length contentLength)
     then Threw (JsError ("Content too large (" ++ str contentLength
                          ++ " bytes). Maximum allowed: 10485760 bytes"))
     else Returned tt,
     (w1, (tr ++ [EvHead url])%list)).
Proof. exact (preflightCheck_on_accepted_status url resp w w1 tr). Qed.

End PreflightProperties.

Lemma preflight_rejected_status_405 :
  preflightCheck
    (Demo.static Demo.urls Demo.a_records []
       [("http://a.example/", mkResponse 405 [] "")])
    "http://a.example/" Demo.st0
  = (Returned tt, (tt, [EvHead "http://a.example/"])).
Proof.
  exact (preflight_rejected_status
           (Demo.static Demo.urls Demo.a_records []
              [("http://a.example/", mkResponse 405 [] "")])
           "http://a.example/" (mkResponse 405 [] "") tt tt []
           eq_refl ltac:(simpl; lia)).
Defined.

Lemma preflight_accepted_status_pdf :
  preflightCheck
    (Demo.static Demo.urls Demo.a_records []
       [("http://a.example/",
         mkResponse 200 [("content-type", "application/pdf")] "")])
    "http://a.example/" Demo.st0
  = (Threw (JsError "URL does not serve HTML content"),
     (tt, [EvHead "http://a.example/"])).
Proof.
  exact (preflight_accepted_status
           (Demo.static Demo.urls Demo.a_records []
              [("http://a.example/",
                mkResponse 200 [("content-type", "application/pdf")] "")])
           "http://a.example/"
           (mkResponse 200 [("content-type", "application/pdf")] "") tt tt []
           eq_refl ltac:(simpl; lia)).
Defined.

(* ================================================================== *)
(** ** Further properties of the fetcher                               *)
(* ================================================================== *)

Section FetcherProperties.

Context {W : Type}.
Variable P : Platform W.

Lemma fetchHTML_unfold (fuel : nat) (url : string) (st : St W) :
  fetchHTML P (S fuel) url st
  = match fetch_attempt P url st with
    | (Returned (Document html), st') => (Returned html, st')
    | (Returned (Follow validated), st') => fetchHTML P fuel validated st'
    | (Threw e, st') => (Threw e, st')
    | (OutOfFuel, st') => (OutOfFuel, st')
    end.
Proof.
  cbn [fetchHTML]. unfold bind at 1. fold (fetch_attempt P url).
  destruct (fetch_attempt P url st) as [[[html | validated] | e |] st']; reflexivity.
Qed.


Lemma validate_status_get (st : Z) :
  ((st <? 400)%Z || is_redirect_status st) = (st <? 400)%Z.
Proof.
  unfold is_redirect_status.
  destruct (Z.ltb_spec st 400); [reflexivity |].
  rewrite andb_false_r. reflexivity.
Qed.

(** One attempt when the transport answers with a response that is not
    a redirect to follow. *)
Lemma fetch_attempt_response (url : string) (resp : Response) (w w1 : W)
  (tr : list Event) :
  transport_get P url w = (inr resp, w1) ->
  is_redirect_status (status resp) && truthy (header (headers resp) "location") = false ->
  fetch_attempt P url (w, tr)
  = (if (status resp <? 400)%Z
     then if fetch_accepts (header (headers resp) "content-type")
          then Returned (Document (data resp))
          else Threw (JsError
                 ("Failed to fetch website: URL does not serve HTML content (Content-Type: "
                  ++ str (header (headers resp) "content-type") ++ ")"))
     else Threw (JsError (status_failure_message (status resp))),
     (w1, (tr ++ [EvGet url])%list)).
Proof.
  intros Hget Hred.
  unfold fetch_attempt, try_catch, bind. rewrite axios_get_run, Hget.
  cbn [fst snd settled]. rewrite validate_status_get.
  destruct (status resp <? 400)%Z eqn:Hst.
  - rewrite Hred. unfold fetch_accepts.
    change (match header (headers resp) "content-type" with
            | Some c => c | None => "" end)
      with (str (header (headers resp) "content-type")).
    destruct (truthy (header (headers resp) "content-type")); cbn [negb andb orb];
      [| reflexivity].
    destruct (includes _ "text/html"); cbn [negb andb orb]; [reflexivity |].
    destruct (includes _ "application/xhtml+xml"); reflexivity.
  - unfold fetch_handler, status_failure_message, status_is, code_is, isAxiosError,
      response_status_of, code_of. cbn [andb].
    destruct (status resp <? 500)%Z;
      (destruct (status resp =? 403)%Z; [reflexivity |]);
      (destruct (status resp =? 404)%Z; reflexivity).
Qed.

(** One activation on a response that is a document. *)
Lemma fetchHTML_on_document (fuel : nat) (url : string) (resp : Response) (w w1 : W)
  (tr : list Event) :
  transport_get P url w = (inr resp, w1) ->
  (status resp < 400)%Z ->
  is_redirect_status (status resp) && truthy (header (headers resp) "location") = false ->
  fetchHTML P (S fuel) url (w, tr)
  = (if fetch_accepts (header (headers resp) "content-type")
     then Returned (data resp)
     else Threw (JsError
            ("Failed to fetch website: URL does not serve HTML content (Content-Type: "
             ++ str (header (headers resp) "content-type") ++ ")")),
     (w1, (tr ++ [EvGet url])%list)).
Proof.
  intros Hget Hst Hred.
  rewrite fetchHTML_unfold, (fetch_attempt_response _ _ _ _ _ Hget Hred).
  destruct (Z.ltb_spec (status resp) 400); [| lia].
  destruct (fetch_accepts _); reflexivity.
Qed.

(** X10.  A response with a status below 400 that is not a redirect
    with a [Location] (a 3xx answer without one counts as a document)
    ends the fetch after the single GET: the body is returned when the
    declared content type is absent, empty, or contains [text/html] or
    [application/xhtml+xml], and the fetch fails otherwise. *)
Theorem fetchHTML_document (fuel : nat) (url : string) (resp : Response) (w w1 : W)
  (tr : list Event) :
  transport_get P url w = (inr resp, w1) ->
  (status resp < 400)%Z ->
  is_redirect_status (status resp) && truthy (header (headers resp) "location") = false ->
  fetchHTML P (S fuel) url (w, tr)
  = (if fetch_accepts (header (headers resp) "content-type")
     then Returned (data resp)
     else Threw (JsError
            ("Failed to fetch website: URL does not serve HTML content (Content-Type: "
             ++ str (header (headers resp) "content-type") ++ ")")),
     (w1, (tr ++ [EvGet url])%list)).
Proof. exact (fetchHTML_on_document fuel url resp w w1 tr). Qed.

(** X11.  A response with a status of 400 or more ends the fetch after
    the single GET with a plain [Error]: the access-denied message for
    403, the page-not-found message for 404, and otherwise the axios
    message behind [Failed to fetch website: ]. *)
Theorem fetchHTML_error_status (fuel : nat) (url : string) (resp : Response) (w w1 : W)
  (tr : list Event) :
  transport_get P url w = (inr resp, w1) ->
  (400 <= status resp)%Z ->
  fetchHTML P (S fuel) url (w, tr)
  = (Threw (JsError (status_failure_message (status resp))),
     (w1, (tr ++ [EvGet url])%list)).
Proof.
  intros Hget Hst.
  assert (Hred : is_redirect_status (status resp)
                 && truthy (header (headers resp) "location") = false).
  { unfold is_redirect_status. destruct (Z.ltb_spec (status resp) 400); [lia |].
    rewrite andb_false_r. reflexivity. }
  rewrite fetchHTML_unfold, (fetch_attempt_response _ _ _ _ _ Hget Hred).
  destruct (Z.ltb_spec (status resp) 400); [lia | reflexivity].
Qed.

(** X12.  When the transport fails with an axios error that carries a
    code and no response, the fetch ends after the single GET with the
    message for that code (host not found, connection refused,
    timeout), or with the axios message behind
    [Failed to fetch website: ] for any other code. *)
Theorem fetchHTML_network_failure (fuel : nat) (url code message : string) (w w1 : W)
  (tr : list Event) :
  transport_get P url w = (inl (AxiosError message (Some code) None), w1) ->
  fetchHTML P (S fuel) url (w, tr)
  = (Threw (JsError (network_failure_message code message)),
     (w1, (tr ++ [EvGet url])%list)).
Proof.
  intros Hget.
  rewrite fetchHTML_unfold.
  unfold fetch_attempt, try_catch, bind. rewrite axios_get_run, Hget.
  cbn [fst snd settled].
  unfold fetch_handler, network_failure_message, status_is, code_is, isAxiosError,
    response_status_of, code_of. cbn [andb].
  destruct (String.eqb code "ENOTFOUND"); [reflexivity |].
  destruct (String.eqb code "ECONNREFUSED"); [reflexivity |].
  destruct (String.eqb code "ETIMEDOUT"); reflexivity.
Qed.




(** X15.  A chain of redirects of any length [n], each target accepted
    by the sanitizer, is followed to its end: with fuel for more than
    [n] activations [fetchHTML] returns the document at the end of the
    chain, in the state the chain leads to. *)
Theorem fetchHTML_follows_chain (n : nat) (url html : string) (st st' : St W) :
  redirect_chain P n url st html st' ->
  forall fuel, (n < fuel)%nat -> fetchHTML P fuel url st = (Returned html, st').
Proof.
  induction 1 as [url w w1 tr resp Hget Hst Hred Hacc
                 | n url loc validated html w w1 tr resp target st2 st3
                     Hget Hred Hloc Hne Hnew Hval Hchain IH];
    intros fuel Hfuel; destruct fuel as [| fuel]; try lia.
  - rewrite (fetchHTML_on_document fuel url resp w w1 tr Hget Hst Hred), Hacc.
    reflexivity.
  - rewrite (fetchHTML_redirect_step P fuel url loc resp w w1 tr target
               Hget Hred Hloc Hne Hnew), Hval.
    apply IH. lia.
Qed.

End FetcherProperties.

Lemma fetchHTML_document_c :
  fetchHTML Demo.chain 1 "http://c.example/" Demo.st0
  = (Returned "<html><head><title>C</title></head></html>",
     (tt, [EvGet "http://c.example/"])).
Proof.
  exact (fetchHTML_document Demo.chain 0 "http://c.example/"
           (Demo.page "<html><head><title>C</title></head></html>") tt tt []
           eq_refl ltac:(simpl; lia) eq_refl).
Defined.

Lemma fetchHTML_error_status_404 :
  fetchHTML
    (Demo.static Demo.urls Demo.a_records []
       [("http://a.example/", mkResponse 404 [] "")])
    1 "http://a.example/" Demo.st0
  = (Threw (JsError "Page not found. Please check the URL."),
     (tt, [EvGet "http://a.example/"])).
Proof.
  exact (fetchHTML_error_status
           (Demo.static Demo.urls Demo.a_records []
              [("http://a.example/", mkResponse 404 [] "")])
           0 "http://a.example/" (mkResponse 404 [] "") tt tt []
           eq_refl ltac:(simpl; lia)).
Defined.

Lemma fetchHTML_network_failure_enotfound :
  fetchHTML Demo.chain 1 "http://gone.example/" Demo.st0
  = (Threw (JsError "Website not found. Please check the URL and try again."),
     (tt, [EvGet "http://gone.example/"])).
Proof.
  exact (fetchHTML_network_failure Demo.chain 0 "http://gone.example/" "ENOTFOUND"
           "getaddrinfo ENOTFOUND http://gone.example/" tt tt [] eq_refl).
Defined.

Lemma fetchHTML_follows_chain_abc :
  fetchHTML Demo.chain 3 "http://a.example/" Demo.st0
  = (Returned "<html><head><title>C</title></head></html>",
     (tt, [EvGet "http://a.example/";
           EvResolve4 "b.example"; EvResolve6 "b.example";
           EvGet "http://b.example/";
           EvResolve4 "c.example"; EvResolve6 "c.example";
           EvGet "http://c.example/"])).
Proof.
  apply (fetchHTML_follows_chain Demo.chain 2); [| lia].
  apply (chain_hop Demo.chain 1 "http://a.example/" "http://b.example/"
           "http://b.example/" _ tt tt []
           (Demo.redirect_to "http://b.example/")
           (mkURL "http:" "" "b.example" "http://b.example/")
           (tt, [EvGet "http://a.example/";
                 EvResolve4 "b.example"; EvResolve6 "b.example"]));
    try reflexivity; try discriminate.
  apply (chain_hop Demo.chain 0 "http://b.example/" "http://c.example/"
           "http://c.example/" _ tt tt
           [EvGet "http://a.example/";
            EvResolve4 "b.example"; EvResolve6 "b.example"]
           (Demo.redirect_to "http://c.example/")
           (mkURL "http:" "" "c.example" "http://c.example/")
           (tt, [EvGet "http://a.example/";
                 EvResolve4 "b.example"; EvResolve6 "b.example";
                 EvGet "http://b.example/";
                 EvResolve4 "c.example"; EvResolve6 "c.example"]));
    try reflexivity; try discriminate.
  apply (chain_document Demo.chain "http://c.example/" tt tt
           [EvGet "http://a.example/";
            EvResolve4 "b.example"; EvResolve6 "b.example";
            EvGet "http://b.example/";
            EvResolve4 "c.example"; EvResolve6 "c.example"]
           (Demo.page "<html><head><title>C</title></head></html>"));
    reflexivity.
Defined.

(* ================================================================== *)
(** ** Properties of the analysis and of its route                     *)
(* ================================================================== *)



Section AnalysisProperties.

Context {W : Type}.
Variable P : Platform W.

Lemma analyzeWebsite_unfold (fuel : nat) (url : string) (st : St W) :
  analyzeWebsite P fuel url st
  = match validateAndSanitizeUrl P url st with
    | (Returned v, st1) =>
        match preflightCheck P v st1 with
        | (Returned _, st2) =>
            match fetchHTML P fuel v st2 with
            | (Returned html, st3) =>
                (Returned
                   (mkAnalysis v (parseMetaTags P html)
                      (score (calculateSEOScore (parseMetaTags P html) v))
                      (issues (calculateSEOScore (parseMetaTags P html) v))
                      (tags (calculateSEOScore (parseMetaTags P html) v))
                      (now_toISOString P (fst st3))), st3)
            | (Threw e, st3) => (Threw e, st3)
            | (OutOfFuel, st3) => (OutOfFuel, st3)
            end
        | (Threw e, st2) => (Threw e, st2)
        | (OutOfFuel, st2) => (OutOfFuel, st2)
        end
    | (Threw e, st1) => (Threw e, st1)
    | (OutOfFuel, st1) => (OutOfFuel, st1)
    end.
Proof.
  unfold analyzeWebsite, bind.
  destruct (validateAndSanitizeUrl P url st) as [[v | e |] st1]; reflexivity.
Qed.


(** X17.  A page whose HEAD response declares a content type without
    [text/html] is turned down by the preflight, and its body is never
    requested; this includes [application/xhtml+xml], which
    [fetchHTML] on its own accepts. *)
Theorem non_html_stopped_at_preflight (fuel : nat) (url v contentType : string)
  (st : St W) (w1 w2 : W) (tr1 : list Event) (resp : Response) :
  validateAndSanitizeUrl P url st = (Returned v, (w1, tr1)) ->
  transport_head P v w1 = (inr resp, w2) ->
  (status resp < 400)%Z ->
  header (headers resp) "content-type" = Some contentType ->
  contentType <> "" ->
  includes contentType "text/html" = false ->
  analyzeWebsite P fuel url st
  = (Threw (JsError "URL does not serve HTML content"),
     (w2, (tr1 ++ [EvHead v])%list))
  /\ (includes contentType "application/xhtml+xml" = true ->
      fetch_accepts (Some contentType) = true).
Proof.
  intros Hv Hhead Hst Hct Hne Hinc. split.
  - rewrite analyzeWebsite_unfold, Hv.
    rewrite (preflightCheck_on_accepted_status P v resp w1 w2 tr1 Hhead Hst), Hct.
    unfold preflight_accepts_type. cbn [str].
    assert (Ht : truthy (Some contentType) = true)
      by (destruct contentType; [contradiction | reflexivity]).
    rewrite Ht, Hinc. reflexivity.
  - intros Hx. unfold fetch_accepts. cbn [str]. rewrite Hx.
    rewrite orb_true_r. reflexivity.
Qed.

Context {Body Details : Type}.
Variable safeParse : Body -> Details + string.

(** X18.  The route never lets an exception out: a body that fails the
    schema is answered 400 without any DNS query or HTTP request; a
    failure of the analysis is answered 500 with the message of the
    error; a 400 is given only for a body that fails the schema and a
    200 only when the analysis returned. *)
Theorem post_analyze_always_answers (fuel : nat) (body : Body) (st : St W) :
  let r := post_analyze P safeParse fuel body st in
  (forall e, outcome r <> Threw e)
  /\ (forall details, safeParse body = inl details ->
        r = (Returned (Json400 "Invalid request" details), st))
  /\ (forall url m st', safeParse body = inr url ->
        analyzeWebsite P fuel url st = (Threw (JsError m), st') ->
        r = (Returned (Json500 "Analysis failed" m), st'))
  /\ (forall resp, outcome r = Returned resp ->
        (status_code resp = 400%Z <-> exists details, safeParse body = inl details)
        /\ (status_code resp = 200%Z <->
            exists url analysis st',
              safeParse body = inr url
              /\ analyzeWebsite P fuel url st = (Returned analysis, st'))).
Proof.
  intros r. subst r. unfold post_analyze, try_catch, bind, outcome, ret.
  destruct (safeParse body) as [details | url] eqn:Hparse.
  - cbn [fst]. split; [intros e; discriminate |].
    split; [intros d H; inversion H; reflexivity |].
    split; [intros url m st' H; discriminate H |].
    intros resp H. inversion H. subst resp. cbn [status_code]. split; split.
    + intros _. eauto.
    + reflexivity.
    + discriminate.
    + intros [url [analysis [st' [Hu _]]]]. discriminate Hu.
  - destruct (analyzeWebsite P fuel url st) as [[analysis | e |] st1] eqn:Hrun;
      cbn [fst].
    + split; [intros e; discriminate |].
      split; [intros d H; discriminate H |].
      split; [intros url' m st' Hu H; inversion Hu; subst url';
              rewrite Hrun in H; discriminate H |].
      intros resp H. inversion H. subst resp. cbn [status_code]. split; split.
      * discriminate.
      * intros [d Hd]. discriminate Hd.
      * intros _. exists url, analysis, st1. auto.
      * reflexivity.
    + split; [intros e'; discriminate |].
      split; [intros d H; discriminate H |].
      split.
      { intros url' m st' Hu H. inversion Hu. subst url'.
        rewrite Hrun in H. inversion H. subst. reflexivity. }
      intros resp H. inversion H. subst resp. cbn [status_code]. split; split.
      * discriminate.
      * intros [d Hd]. discriminate Hd.
      * discriminate.
      * intros [u [a [s' [Hu Ha]]]]. inversion Hu. subst u.
        rewrite Hrun in Ha. discriminate Ha.
    + split; [intros e; discriminate |].
      split; [intros d H; discriminate H |].
      split; [intros url' m st' Hu H; inversion Hu; subst url';
              rewrite Hrun in H; discriminate H |].
      intros resp H. discriminate H.
Qed.

End AnalysisProperties.

Lemma non_html_stopped_at_preflight_xhtml :
  analyzeWebsite
    (Demo.static Demo.urls Demo.a_records []
       [("http://a.example/",
         mkResponse 200 [("content-type", "application/xhtml+xml")] "<html/>")])
    3 "http://a.example/" Demo.st0
  = (Threw (JsError "URL does not serve HTML content"),
     (tt, [EvResolve4 "a.example"; EvResolve6 "a.example"; EvHead "http://a.example/"]))
  /\ fetch_accepts (Some "application/xhtml+xml") = true.
Proof.
  destruct (non_html_stopped_at_preflight
              (Demo.static Demo.urls Demo.a_records []
                 [("http://a.example/",
                   mkResponse 200 [("content-type", "application/xhtml+xml")] "<html/>")])
              3 "http://a.example/" "http://a.example/" "application/xhtml+xml"
              Demo.st0 tt tt [EvResolve4 "a.example"; EvResolve6 "a.example"]
              (mkResponse 200 [("content-type", "application/xhtml+xml")] "")
              eq_refl eq_refl ltac:(simpl; lia) eq_refl ltac:(discriminate) eq_refl)
    as [Hrun Hacc].
  split; [exact Hrun | exact (Hacc eq_refl)].
Defined.

(* ================================================================== *)
(** ** Further properties of the scorer                                *)
(* ================================================================== *)

Lemma count_type_app (t : IssueType.t) (l1 l2 : list SEOIssue) :
  count_type t (l1 ++ l2)%list = (count_type t l1 + count_type t l2)%nat.
Proof. unfold count_type. now rewrite filter_app, length_app. Qed.

Lemma stage_spec_compose (f g : Report -> Report) (p q : Z) (n n' e e' : nat)
  (names names' : list string) :
  stage_spec f p n e names -> stage_spec g q n' e' names' ->
  stage_spec (fun r => g (f r)) (p + q) (n + n') (e + e') (names ++ names')%list.
Proof.
  intros Hf Hg r.
  destruct (Hf r) as [Hs [iss [ts [Hi [Ht [Hn [He [Hnames Hok]]]]]]]].
  destruct (Hg (f r)) as [Hs' [iss' [ts' [Hi' [Ht' [Hn' [He' [Hnames' Hok']]]]]]]].
  split; [rewrite Hs', Hs; lia |].
  exists (iss ++ iss')%list, (ts ++ ts')%list.
  rewrite Hi', Hi, Ht', Ht, <- !app_assoc.
  repeat split.
  - rewrite length_app. lia.
  - rewrite count_type_app. lia.
  - rewrite map_app. now rewrite Hnames, Hnames'.
  - apply Forall_app. split; assumption.
Qed.

Ltac tag_ok_solve :=
  repeat constructor; unfold tag_ok;
  cbn [tag_content tag_status tag_recommendation];
  repeat split; intros; try discriminate; try reflexivity; try contradiction.

Ltac stage_case :=
  cbn [score issues tags push_tag push_issue sub_score];
  rewrite <- ?app_assoc; cbn [app];
  split; [lia |];
  eexists _, _;
  split; [first [reflexivity | symmetry; apply app_nil_r] |];
  split; [first [reflexivity | symmetry; apply app_nil_r] |];
  split; [reflexivity |]; split; [reflexivity |]; split; [reflexivity |];
  tag_ok_solve.

Section ScorerStages.

Variable m : HTMLMetaData.

Lemma score_title_spec :
  stage_spec (score_title m) (title_penalty m) 1 (missing (title m)) ["title"].
Proof.
  intros r. unfold score_title, title_penalty, missing.
  destruct (title m) as [[| c s] |]; cbn [truthy str].
  - stage_case.
  - destruct (strlen (String c s) <? 30)%Z; [stage_case |].
    destruct (60 <? strlen (String c s))%Z; stage_case.
  - stage_case.
Qed.

Lemma score_description_spec :
  stage_spec (score_description m) (description_penalty m) 1
    (missing (description m)) ["description"].
Proof.
  intros r. unfold score_description, description_penalty, missing.
  destruct (description m) as [[| c s] |]; cbn [truthy str].
  - stage_case.
  - destruct (strlen (String c s) <? 120)%Z; [stage_case |].
    destruct (160 <? strlen (String c s))%Z; stage_case.
  - stage_case.
Qed.

Lemma score_open_graph_spec :
  stage_spec (score_open_graph m) (open_graph_penalty m) 1 0 (open_graph_tag_names m).
Proof.
  intros r. unfold score_open_graph, open_graph_penalty, open_graph_tag_names.
  destruct (ogTitle m) as [[| c s] |]; destruct (ogDescription m) as [[| c' s'] |];
    cbn [truthy str andb negb]; stage_case.
Qed.

Lemma score_og_image_spec :
  stage_spec (score_og_image m) (og_image_penalty m) (missing (ogImage m)) 0 ["og:image"].
Proof.
  intros r. unfold score_og_image, og_image_penalty, missing.
  destruct (ogImage m) as [[| c s] |]; cbn [truthy str]; stage_case.
Qed.

Lemma score_canonical_spec :
  stage_spec (score_canonical m) (canonical_penalty m) 1 0 ["canonical"].
Proof.
  intros r. unfold score_canonical, canonical_penalty.
  destruct (canonical m) as [[| c s] |]; cbn [truthy str]; stage_case.
Qed.

Lemma score_viewport_spec :
  stage_spec (score_viewport m) (viewport_penalty m) (missing (viewport m)) 0 ["viewport"].
Proof.
  intros r. unfold score_viewport, viewport_penalty, missing.
  destruct (viewport m) as [[| c s] |]; cbn [truthy str]; stage_case.
Qed.

Lemma score_robots_spec :
  stage_spec (score_robots m) 0 0 0 ["robots"].
Proof.
  intros r. unfold score_robots.
  destruct (robots m) as [[| c s] |]; cbn [truthy str]; stage_case.
Qed.

Lemma penalties_bounded :
  (0 <= title_penalty m <= 25)%Z /\ (0 <= description_penalty m <= 20)%Z
  /\ (0 <= open_graph_penalty m <= 15)%Z /\ (0 <= og_image_penalty m <= 10)%Z
  /\ (0 <= canonical_penalty m <= 8)%Z /\ (0 <= viewport_penalty m <= 5)%Z.
Proof.
  unfold title_penalty, description_penalty, open_graph_penalty, og_image_penalty,
    canonical_penalty, viewport_penalty.
  repeat split;
    repeat match goal with
           | |- context [if ?c then _ else _] => destruct c
           end; lia.
Qed.

(** The report as a whole, before the final [Math.max]. *)
Lemma scorer_spec :
  stage_spec
    (fun r => score_robots m (score_viewport m (score_canonical m (score_og_image m
                (score_open_graph m (score_description m (score_title m r)))))))
    (total_penalty m + 0)
    (1 + 1 + 1 + missing (ogImage m) + 1 + missing (viewport m) + 0)
    (missing (title m) + missing (description m) + 0 + 0 + 0 + 0 + 0)
    (["title"] ++ ["description"] ++ open_graph_tag_names m ++ ["og:image"]
     ++ ["canonical"] ++ ["viewport"] ++ ["robots"]).
Proof.
  pose proof (stage_spec_compose _ _ _ _ _ _ _ _ _ _
                (stage_spec_compose _ _ _ _ _ _ _ _ _ _
                   (stage_spec_compose _ _ _ _ _ _ _ _ _ _
                      (stage_spec_compose _ _ _ _ _ _ _ _ _ _
                         (stage_spec_compose _ _ _ _ _ _ _ _ _ _
                            (stage_spec_compose _ _ _ _ _ _ _ _ _ _
                               score_title_spec score_description_spec)
                            score_open_graph_spec)
                         score_og_image_spec)
                      score_canonical_spec)
                   score_viewport_spec)
                score_robots_spec) as H.
  unfold total_penalty. rewrite <- !app_assoc in H. exact H.
Qed.

End ScorerStages.

Lemma calculateSEOScore_spec (m : HTMLMetaData) (url : string) :
  score (calculateSEOScore m url) = (100 - total_penalty m)%Z
  /\ List.length (issues (calculateSEOScore m url))
     = (4 + missing (ogImage m) + missing (viewport m))%nat
  /\ count_type IssueType.error (issues (calculateSEOScore m url))
     = (missing (title m) + missing (description m))%nat
  /\ map tag_name (tags (calculateSEOScore m url))
     = (["title"; "description"] ++ open_graph_tag_names m
        ++ ["og:image"; "canonical"; "viewport"; "robots"])%list
  /\ Forall tag_ok (tags (calculateSEOScore m url)).
Proof.
  destruct (scorer_spec m (mkReport 100 [] []))
    as [Hs [iss [ts [Hi [Ht [Hn [He [Hnames Hok]]]]]]]].
  unfold calculateSEOScore. cbn [score issues tags] in *.
  rewrite Hs, Hi, Ht. cbn [app].
  pose proof (penalties_bounded m) as Hb. unfold total_penalty in *.
  repeat split.
  - lia.
  - rewrite Hn. lia.
  - rewrite He. lia.
  - exact Hnames.
  - exact Hok.
Qed.

(** X20.  The score is 100 less the penalties of the six scored
    sections, and always lies between 17 and 100: the final
    [Math.max(0, score)] never changes it, and the score fits the
    range 0 to 100 of the response schema. *)
Theorem score_range (m : HTMLMetaData) (url : string) :
  score (calculateSEOScore m url) = (100 - total_penalty m)%Z
  /\ (17 <= score (calculateSEOScore m url) <= 100)%Z.
Proof.
  destruct (calculateSEOScore_spec m url) as [Hs _].
  pose proof (penalties_bounded m) as Hb. unfold total_penalty in *.
  split; [exact Hs | lia].
Qed.

Lemma title_penalty_zero (m : HTMLMetaData) :
  title_penalty m = 0%Z
  <-> truthy (title m) = true /\ (30 <= strlen (str (title m)) <= 60)%Z.
Proof.
  unfold title_penalty. destruct (truthy (title m)).
  - destruct (Z.ltb_spec (strlen (str (title m))) 30);
      [split; [discriminate | lia] |].
    destruct (Z.ltb_spec 60 (strlen (str (title m))));
      [split; [discriminate | lia] |].
    split; [intros _; split; [reflexivity | lia] | reflexivity].
  - split; [discriminate | intros [H _]; discriminate H].
Qed.

Lemma description_penalty_zero (m : HTMLMetaData) :
  description_penalty m = 0%Z
  <-> truthy (description m) = true /\ (120 <= strlen (str (description m)) <= 160)%Z.
Proof.
  unfold description_penalty. destruct (truthy (description m)).
  - destruct (Z.ltb_spec (strlen (str (description m))) 120);
      [split; [discriminate | lia] |].
    destruct (Z.ltb_spec 160 (strlen (str (description m))));
      [split; [discriminate | lia] |].
    split; [intros _; split; [reflexivity | lia] | reflexivity].
  - split; [discriminate | intros [H _]; discriminate H].
Qed.

Lemma presence_penalties_zero (m : HTMLMetaData) :
  (open_graph_penalty m = 0%Z
   <-> truthy (ogTitle m) = true /\ truthy (ogDescription m) = true)
  /\ (og_image_penalty m = 0%Z <-> truthy (ogImage m) = true)
  /\ (canonical_penalty m = 0%Z <-> truthy (canonical m) = true)
  /\ (viewport_penalty m = 0%Z <-> truthy (viewport m) = true).
Proof.
  unfold open_graph_penalty, og_image_penalty, canonical_penalty, viewport_penalty.
  destruct (truthy (ogTitle m)), (truthy (ogDescription m)), (truthy (ogImage m)),
    (truthy (canonical m)), (truthy (viewport m)); cbn [andb];
    intuition discriminate.
Qed.

(** X21.  The score is 100 exactly when the title has 30 to 60
    characters, the description has 120 to 160, and the Open Graph
    title, description and image, the canonical URL and the viewport
    are all present. *)
Theorem perfect_score_iff (m : HTMLMetaData) (url : string) :
  score (calculateSEOScore m url) = 100%Z
  <-> (truthy (title m) = true /\ (30 <= strlen (str (title m)) <= 60)%Z)
      /\ (truthy (description m) = true
          /\ (120 <= strlen (str (description m)) <= 160)%Z)
      /\ truthy (ogTitle m) = true /\ truthy (ogDescription m) = true
      /\ truthy (ogImage m) = true /\ truthy (canonical m) = true
      /\ truthy (viewport m) = true.
Proof.
  destruct (calculateSEOScore_spec m url) as [Hs _]. rewrite Hs.
  pose proof (penalties_bounded m) as Hb.
  destruct (presence_penalties_zero m) as [Hog [Himg [Hcan Hvp]]].
  rewrite <- title_penalty_zero, <- description_penalty_zero.
  rewrite <- Himg, <- Hcan, <- Hvp.
  unfold total_penalty. split.
  - intros H.
    assert (H0 : open_graph_penalty m = 0%Z) by lia.
    apply Hog in H0. destruct H0 as [H1 H2].
    repeat split; try assumption; lia.
  - intros [Ht [Hd [H1 [H2 [Hi [Hc Hv]]]]]].
    assert (H0 : open_graph_penalty m = 0%Z) by (apply Hog; auto).
    lia.
Qed.

(** X22.  The names of the tag report, in order: title, description,
    the Open Graph entries, og:image, canonical, viewport, robots.
    Both Open Graph entries are listed when both fields are present;
    otherwise only the missing ones are, so a field that is present
    while the other is missing does not appear in the report. *)
Theorem tag_report_names (m : HTMLMetaData) (url : string) :
  map tag_name (tags (calculateSEOScore m url))
  = (["title"; "description"] ++ open_graph_tag_names m
     ++ ["og:image"; "canonical"; "viewport"; "robots"])%list
  /\ (truthy (ogTitle m) = true -> truthy (ogDescription m) = false ->
      ~ In "og:title" (map tag_name (tags (calculateSEOScore m url)))).
Proof.
  destruct (calculateSEOScore_spec m url) as [_ [_ [_ [Hnames _]]]].
  split; [exact Hnames |].
  intros Ht Hd. rewrite Hnames. unfold open_graph_tag_names. rewrite Ht, Hd.
  cbn. intros H.
  repeat (destruct H as [H | H]; [discriminate H |]). exact H.
Qed.

(** X23.  In every tag of the report the content is empty exactly when
    the status is missing, and the recommendation is absent exactly
    when the status is good. *)
Theorem tag_report_consistent (m : HTMLMetaData) (url : string) :
  Forall tag_ok (tags (calculateSEOScore m url)).
Proof. exact (proj2 (proj2 (proj2 (proj2 (calculateSEOScore_spec m url))))). Qed.

(** X24.  The report always lists four to six issues, so the issue
    list is never empty: one each for title, description, Open Graph
    and canonical URL, and one more for a missing og:image and for a
    missing viewport.  The errors among them are exactly the missing
    title and the missing description. *)
Theorem issue_report_counts (m : HTMLMetaData) (url : string) :
  List.length (issues (calculateSEOScore m url))
  = (4 + missing (ogImage m) + missing (viewport m))%nat
  /\ count_type IssueType.error (issues (calculateSEOScore m url))
     = (missing (title m) + missing (description m))%nat
  /\ SEOScore.showsNoIssues (issues (calculateSEOScore m url)) = false.
Proof.
  destruct (calculateSEOScore_spec m url) as [_ [Hlen [Herr _]]].
  split; [exact Hlen |]. split; [exact Herr |].
  unfold SEOScore.showsNoIssues. rewrite Hlen. reflexivity.
Qed.

(** X25.  The Twitter fields and the URL have no part in the report:
    two records that agree on every other field get the same score,
    issues and tags, whatever the URLs. *)
Theorem twitter_fields_not_scored (m m' : HTMLMetaData) (url url' : string) :
  same_scored_fields m m' ->
  calculateSEOScore m url = calculateSEOScore m' url'.
Proof.
  unfold same_scored_fields.
  destruct m, m'. simpl.
  intros [-> [-> [-> [-> [-> [-> [-> ->]]]]]]]. reflexivity.
Qed.

(** X26.  What the score display makes of the report: a page without a
    title is never shown in the success colour, and a page without
    title and description is always shown in the error colour, by the
    score text, its background and the bar alike. *)
Theorem missing_title_never_green (m : HTMLMetaData) (url : string) :
  truthy (title m) = false ->
  let s := score (calculateSEOScore m url) in
  SEOScore.getScoreColor s <> "text-success"
  /\ (truthy (description m) = false ->
      SEOScore.getScoreColor s = "text-error"
      /\ SEOScore.getScoreBackground s = "bg-error/10"
      /\ SEOScore.barClass s = "bg-error").
Proof.
  intros Ht s. subst s.
  destruct (calculateSEOScore_spec m url) as [Hs _]. rewrite Hs.
  pose proof (penalties_bounded m) as Hb.
  unfold total_penalty in *. unfold title_penalty in *. rewrite Ht in *.
  unfold SEOScore.getScoreColor, SEOScore.getScoreBackground, SEOScore.barClass.
  split.
  - destruct (Z.leb_spec 80 (100 - (25 + description_penalty m + open_graph_penalty m
                                    + og_image_penalty m + canonical_penalty m
                                    + viewport_penalty m))); [lia |].
    destruct (60 <=? _)%Z; discriminate.
  - intros Hd. unfold description_penalty in *. rewrite Hd in *.
    destruct (Z.leb_spec 80 (100 - (25 + 20 + open_graph_penalty m
                                    + og_image_penalty m + canonical_penalty m
                                    + viewport_penalty m))); [lia |].
    destruct (Z.leb_spec 60 (100 - (25 + 20 + open_graph_penalty m
                                    + og_image_penalty m + canonical_penalty m
                                    + viewport_penalty m))); [lia |].
    auto.
Qed.

Lemma tag_report_names_only_og_title :
  map tag_name (tags (calculateSEOScore Samples.only_og_title "https://a.example/"))
  = ["title"; "description"; "og:description"; "og:image"; "canonical"; "viewport";
     "robots"].
Proof.
  exact (proj1 (tag_report_names Samples.only_og_title "https://a.example/")).
Defined.

Lemma twitter_fields_not_scored_sample :
  calculateSEOScore Samples.with_twitter "https://a.example/"
  = calculateSEOScore Samples.only_og_title "https://b.example/".
Proof.
  apply twitter_fields_not_scored.
  unfold same_scored_fields. simpl. repeat split.
Defined.

Lemma missing_title_never_green_empty :
  SEOScore.getScoreColor (score (calculateSEOScore Samples.empty_meta "https://a.example/"))
  = "text-error".
Proof.
  destruct (missing_title_never_green Samples.empty_meta "https://a.example/" eq_refl)
    as [_ H].
  exact (proj1 (H eq_refl)).
Defined.

(* ================================================================== *)
(** ** Properties of the extraction                                    *)
(* ================================================================== *)

Lemma trimStart_start (s : string) : starts_with_space (trimStart s) = false.
Proof.
  induction s as [| c s IH]; simpl; [reflexivity |].
  destruct (is_space c) eqn:Hc; [exact IH | simpl; exact Hc].
Qed.

Lemma trimEnd_end (s : string) : ends_with_space (trimEnd s) = false.
Proof.
  induction s as [| c s IH]; simpl; [reflexivity |].
  destruct (trimEnd s) as [| c' t] eqn:Ht.
  - destruct (is_space c) eqn:Hc; simpl; [reflexivity | exact Hc].
  - simpl. simpl in IH. exact IH.
Qed.

Lemma trimEnd_start (s : string) :
  starts_with_space s = false -> starts_with_space (trimEnd s) = false.
Proof.
  destruct s as [| c s]; simpl; [reflexivity |].
  intros Hc. destruct (trimEnd s); [rewrite Hc |]; simpl; auto.
Qed.

Lemma trim_ok (s : string) :
  trim s <> "" -> field_ok (Some (trim s)).
Proof.
  intros Hne. unfold field_ok, trim in *. split; [exact Hne |]. split.
  - apply trimEnd_start, trimStart_start.
  - apply trimEnd_end.
Qed.

Lemma or_undefined_trim_ok (v : option string) :
  field_ok (or_undefined (option_map trim v)).
Proof.
  unfold or_undefined. destruct v as [s |]; cbn [option_map]; [| exact I].
  destruct (truthy (Some (trim s))) eqn:Ht; [| exact I].
  apply trim_ok. intros He. rewrite He in Ht. discriminate Ht.
Qed.

(** X19.  Every field that [parseMetaTags] fills is either undefined
    or a string that is not empty and has no white space at either
    end: a tag that is absent, empty or blank is reported as missing,
    never as an empty value. *)
Theorem parseMetaTags_fields {W : Type} (P : Platform W) (html : string) :
  Forall field_ok (meta_fields (parseMetaTags P html))
  /\ Forall (fun v => truthy v = true <-> v <> None)
       (meta_fields (parseMetaTags P html)).
Proof.
  assert (H : Forall field_ok (meta_fields (parseMetaTags P html))).
  { unfold meta_fields, parseMetaTags, attr_of. simpl.
    repeat constructor; try apply or_undefined_trim_ok.
    exact (or_undefined_trim_ok (Some (cheerio_first_text P html "title"))). }
  split; [exact H |].
  eapply Forall_impl; [| exact H].
  intros [[| c s] |]; simpl.
  - intros [Hne _]. contradiction.
  - intros _. split; [discriminate | reflexivity].
  - intros _. split; [discriminate | intros Hn; contradiction].
Qed.

Lemma parseMetaTags_fields_padded :
  title (parseMetaTags Samples.padded_page "<html/>") = Some "Padded title"
  /\ description (parseMetaTags Samples.padded_page "<html/>") = Some "A description"
  /\ ogTitle (parseMetaTags Samples.padded_page "<html/>") = None
  /\ Forall field_ok (meta_fields (parseMetaTags Samples.padded_page "<html/>")).
Proof.
  split; [reflexivity |]. split; [reflexivity |]. split; [reflexivity |].
  exact (proj1 (parseMetaTags_fields Samples.padded_page "<html/>")).
Defined.

(* ================================================================== *)
(** ** Properties of the display helpers                               *)
(* ================================================================== *)

Lemma eqb_slash_sym (c : ascii) : Ascii.eqb "/" c = Ascii.eqb c "/".
Proof. apply Ascii.eqb_sym. Qed.

Lemma replace_trailing_slash_cons (c : ascii) (s : string) (bol : bool) :
  replace_from re_trailing_slash "" bol (String c s)
  = if Ascii.eqb c "/"
    then match s with
         | EmptyString => Some EmptyString
         | String _ _ =>
             option_map (String c) (replace_from re_trailing_slash "" false s)
         end
    else option_map (String c) (replace_from re_trailing_slash "" false s).
Proof.
  set (tail := replace_from re_trailing_slash "" false s).
  assert (Hstep : replace_from re_trailing_slash "" bol (String c s)
                  = match (if Ascii.eqb "/" c
                           then match s with
                                | EmptyString => Some s
                                | String _ _ => None
                                end
                           else None) with
                    | Some rest => Some ("" ++ rest)
                    | None => option_map (String c) tail
                    end) by reflexivity.
  rewrite Hstep, eqb_slash_sym.
  destruct (Ascii.eqb c "/"); [| reflexivity].
  destruct s; reflexivity.
Qed.

(** Removing a trailing slash does not change what precedes the first
    slash. *)
Lemma split_first_trailing_slash (s : string) :
  forall bol,
    split_first "/"
      (match replace_from re_trailing_slash "" bol s with
       | Some s' => s'
       | None => s
       end)
    = split_first "/" s.
Proof.
  induction s as [| c s IH]; intros bol; [reflexivity |].
  rewrite replace_trailing_slash_cons.
  destruct (Ascii.eqb c "/") eqn:Hc.
  - destruct s as [| c' s'].
    + cbn [split_first]. rewrite Hc. reflexivity.
    + destruct (replace_from re_trailing_slash "" false (String c' s')) as [y |];
        cbn [option_map split_first]; rewrite Hc; reflexivity.
  - specialize (IH false).
    destruct (replace_from re_trailing_slash "" false s) as [y |];
      cbn [option_map split_first]; rewrite Hc; [rewrite <- IH |]; reflexivity.
Qed.

Lemma domains_agree (url : string) :
  GooglePreview.domain url = SocialPreview.domain url.
Proof.
  unfold GooglePreview.domain, GooglePreview.displayUrl, SocialPreview.domain.
  unfold replace at 1. apply split_first_trailing_slash.
Qed.

(** X27.  The Google preview and the social previews show the same
    domain for every URL: stripping the trailing slash first, as the
    Google preview does, never changes the part before the first
    slash; and that domain never contains a slash. *)
Theorem previews_agree_on_domain (url : string) :
  GooglePreview.domain url = SocialPreview.domain url
  /\ ~ In "/"%char (list_ascii_of_string (GooglePreview.domain url)).
Proof.
  pose proof (domains_agree url) as Hagree.
  split; [exact Hagree |].
  rewrite Hagree. unfold SocialPreview.domain.
  generalize (replace re_scheme "" url). intros s.
  induction s as [| c s IH]; simpl; [tauto |].
  destruct (Ascii.eqb c "/") eqn:Hc; simpl; [tauto |].
  intros [H | H]; [| exact (IH H)].
  subst c. discriminate Hc.
Qed.

Lemma split_first_host (host rest : string) :
  ~ In "/"%char (list_ascii_of_string host) ->
  split_first "/" (host ++ "/" ++ rest) = host.
Proof.
  induction host as [| c host IH]; simpl; [reflexivity |].
  intros Hno. destruct (Ascii.eqb c "/") eqn:Hc.
  - apply Ascii.eqb_eq in Hc. subst c. exfalso. apply Hno. now left.
  - f_equal. apply IH. intros H. apply Hno. now right.
Qed.

(** X28.  For a URL made of [http://] or [https://], a host without a
    slash, a slash and a path, both previews show the host as the
    domain. *)
Theorem domain_of_http_url (host path : string) :
  ~ In "/"%char (list_ascii_of_string host) ->
  GooglePreview.domain ("https://" ++ host ++ "/" ++ path) = host
  /\ GooglePreview.domain ("http://" ++ host ++ "/" ++ path) = host
  /\ SocialPreview.domain ("https://" ++ host ++ "/" ++ path) = host
  /\ SocialPreview.domain ("http://" ++ host ++ "/" ++ path) = host.
Proof.
  intros Hno.
  assert (Hs : SocialPreview.domain ("https://" ++ host ++ "/" ++ path) = host).
  { unfold SocialPreview.domain.
    change (replace re_scheme "" ("https://" ++ host ++ "/" ++ path))
      with (host ++ "/" ++ path).
    apply split_first_host. exact Hno. }
  assert (Hp : SocialPreview.domain ("http://" ++ host ++ "/" ++ path) = host).
  { unfold SocialPreview.domain.
    change (replace re_scheme "" ("http://" ++ host ++ "/" ++ path))
      with (host ++ "/" ++ path).
    apply split_first_host. exact Hno. }
  rewrite !domains_agree. auto.
Qed.

Lemma domain_of_http_url_sample :
  GooglePreview.domain "https://seo-analyzer.example.com/reports/1/"
  = "seo-analyzer.example.com".
Proof.
  assert (Hno : ~ In "/"%char (list_ascii_of_string "seo-analyzer.example.com")).
  { simpl. intros H.
    repeat (destruct H as [H | H]; [discriminate H |]). exact H. }
  exact (proj1 (domain_of_http_url "seo-analyzer.example.com" "reports/1/" Hno)).
Defined.

(** X29.  The theme chosen with the toggle is the one a later page load
    starts with, whatever the system preference and whatever was
    stored before; the [dark] class of the document follows the state;
    and toggling twice brings the first theme back. *)
Theorem theme_survives_reload (st : ThemeToggle.State) (prefersDark htmlDark : bool) :
  let st' := ThemeToggle.toggleTheme st in
  ThemeToggle.isDark st' = negb (ThemeToggle.isDark st)
  /\ ThemeToggle.htmlDark st' = ThemeToggle.isDark st'
  /\ ThemeToggle.isDark (ThemeToggle.load prefersDark (ThemeToggle.stored st') htmlDark)
     = ThemeToggle.isDark st'
  /\ ThemeToggle.htmlDark (ThemeToggle.load prefersDark (ThemeToggle.stored st') htmlDark)
     = ThemeToggle.isDark st'
  /\ ThemeToggle.isDark (ThemeToggle.toggleTheme st') = ThemeToggle.isDark st.
Proof.
  destruct st as [dark stored html]. simpl.
  destruct dark; simpl; repeat split; reflexivity.
Qed.

Lemma post_analyze_always_answers_samples :
  post_analyze Demo.chain Samples.safeParse 3 None Demo.st0
  = (Returned (Json400 "Invalid request" tt), Demo.st0)
  /\ post_analyze Demo.chain Samples.safeParse 3 (Some "ftp://files.example/") Demo.st0
     = (Returned (Json500 "Analysis failed" "Only HTTP and HTTPS protocols are allowed"),
        Demo.st0).
Proof.
  destruct (post_analyze_always_answers Demo.chain Samples.safeParse 3 None Demo.st0)
    as [_ [H400 _]].
  destruct (post_analyze_always_answers Demo.chain Samples.safeParse 3
              (Some "ftp://files.example/") Demo.st0) as [_ [_ [H500 _]]].
  split.
  - exact (H400 tt eq_refl).
  - exact (H500 "ftp://files.example/" "Only HTTP and HTTPS protocols are allowed"
             Demo.st0 eq_refl eq_refl).
Defined.

(* ================================================================== *)
(** ** IPv4 literals through the sanitizer, and unparsable redirects   *)
(* ================================================================== *)

Lemma octet_texts_table :
  forallb (fun a =>
    (1 <=? String.length (showZ a))%nat && (String.length (showZ a) <=? 3)%nat
    && all_digits (showZ a)) octets = true.
Proof. vm_compute. reflexivity. Qed.

Lemma showZ_octet_shape (a : Z) : (0 <= a < 256)%Z -> octet_shape (showZ a).
Proof.
  intros Ha. pose proof octet_texts_table as Htab.
  rewrite forallb_forall in Htab. specialize (Htab a (octets_complete a Ha)).
  rewrite !andb_true_iff in Htab. destruct Htab as [[H1 H3] Hd].
  apply Nat.leb_le in H1, H3. split; [lia | exact Hd].
Qed.

Section LiteralProperties.

Context {W : Type}.
Variable P : Platform W.

(** X7.  For an http or https URL with an allowed port whose host is
    the dotted-decimal text of an IPv4 address, the sanitizer decides
    on the range table alone and without any DNS query or request: it
    fails with the blocked-address message when the address lies in
    one of the listed ranges or in 240/4, and returns the serialized
    URL otherwise. *)
Theorem ipv4_literal_decided_by_table (raw : string) (u : URL) (a b c d : Z)
  (st : St W) :
  new_URL P raw None = inr u ->
  protocol u = "http:" \/ protocol u = "https:" ->
  has_number ALLOWED_PORTS (effective_port u) = true ->
  hostname u = ipv4_text a b c d ->
  (0 <= a < 256)%Z -> (0 <= b < 256)%Z -> (0 <= c < 256)%Z -> (0 <= d < 256)%Z ->
  validateAndSanitizeUrl P raw st
  = (if in_listed_ipv4_range a b c d || (240 <=? a)%Z
     then Threw (JsError (blocked_message (hostname u)))
     else Returned (href u), st).
Proof.
  intros Hparse Hproto Hport Hhost Ha Hb Hc Hd.
  apply protocol_allowed_iff in Hproto.
  rewrite (sanitize_parsed P _ _ _ Hparse), Hproto, Hport. cbn [negb].
  assert (Hlit : isIPAddress (hostname u) = true).
  { rewrite Hhost. unfold ipv4_text.
    apply isIPAddress_dotted; apply showZ_octet_shape; assumption. }
  assert (Hexact : isBlockedIP (hostname u)
                   = in_listed_ipv4_range a b c d || (240 <=? a)%Z).
  { rewrite Hhost. apply isBlockedIP_dotted_decimal; assumption. }
  unfold bind. rewrite (validateHostname_literal P _ st Hlit), Hexact.
  destruct (in_listed_ipv4_range a b c d || (240 <=? a)%Z) eqn:Hin; [reflexivity |].
  destruct (has METADATA_IPS (hostname u)) eqn:Hm; [| reflexivity].
  apply has_In in Hm. apply metadata_literals_are_blocked in Hm.
  destruct Hm as [_ Hm]. rewrite Hexact in Hm. discriminate Hm.
Qed.

(** X13.  A redirect whose [Location] the URL parser refuses ends the
    fetch after the single GET: the parser's error is reported behind
    [Failed to fetch website: ], and nothing is resolved or requested
    for the target. *)
Theorem fetchHTML_unparsable_location (fuel : nat) (url loc message : string)
  (resp : Response) (w w1 : W) (tr : list Event) :
  transport_get P url w = (inr resp, w1) ->
  is_redirect_status (status resp) = true ->
  header (headers resp) "location" = Some loc -> loc <> "" ->
  new_URL P loc (Some url) = inl (JsError message) ->
  fetchHTML P (S fuel) url (w, tr)
  = (Threw (JsError ("Failed to fetch website: " ++ message)),
     (w1, (tr ++ [EvGet url])%list)).
Proof.
  intros Hget Hred Hloc Hne Hnew.
  rewrite fetchHTML_unfold.
  unfold fetch_attempt, try_catch, bind. rewrite axios_get_run, Hget.
  cbn [fst snd settled]. rewrite validate_status_get.
  assert (Hst : (status resp <? 400)%Z = true).
  { unfold is_redirect_status in Hred. apply andb_true_iff in Hred. tauto. }
  assert (Ht : truthy (Some loc) = true) by (destruct loc; [contradiction | reflexivity]).
  rewrite Hst, Hred, Hloc, Ht. cbn [andb]. rewrite Hnew. reflexivity.
Qed.

End LiteralProperties.

Lemma ipv4_literal_decided_by_table_loopback :
  validateAndSanitizeUrl Demo.chain "http://127.0.0.1/" Demo.st0
  = (Threw (JsError "Access to IP 127.0.0.1 is blocked for security reasons"),
     Demo.st0).
Proof.
  exact (ipv4_literal_decided_by_table Demo.chain "http://127.0.0.1/"
           (mkURL "http:" "" "127.0.0.1" "http://127.0.0.1/") 127 0 0 1 Demo.st0
           eq_refl (or_introl eq_refl) eq_refl eq_refl
           ltac:(lia) ltac:(lia) ltac:(lia) ltac:(lia)).
Defined.

Lemma fetchHTML_unparsable_location_sample :
  fetchHTML
    (Demo.static Demo.urls Demo.a_records []
       [("http://a.example/", Demo.redirect_to "http://[bad")])
    1 "http://a.example/" Demo.st0
  = (Threw (JsError "Failed to fetch website: Invalid URL"),
     (tt, [EvGet "http://a.example/"])).
Proof.
  exact (fetchHTML_unparsable_location
           (Demo.static Demo.urls Demo.a_records []
              [("http://a.example/", Demo.redirect_to "http://[bad")])
           0 "http://a.example/" "http://[bad" "Invalid URL"
           (Demo.redirect_to "http://[bad") tt tt []
           eq_refl eq_refl eq_refl ltac:(discriminate) eq_refl).
Defined.
